(** * md2pdf: Markdown / HTML to PDF conversion with image relocation

    A shallow embedding of [md2pdf.py].  The program is a command-line
    pipeline: it renders Markdown to HTML, wraps it into a themed template,
    relocates the local images the HTML refers to ([copy_images]), and hands
    the result to the external renderer wkhtmltopdf (through pdfkit).

    A Python [str] is represented by its UTF-8 encoding, a Rocq string of
    bytes; the content of a file is the string of its bytes.  Paths are the
    POSIX strings the program manipulates with [os.path], and the filesystem
    is an explicit state: a
    finite map from resolved paths to nodes, together with the working
    directory, a clock for modification times, the list of filesystem calls
    made so far and the lines printed.  Python exceptions and [sys.exit] are
    outcomes of a state monad whose state survives a raise. *)

From Stdlib Require Import Ascii String.
From stdpp Require Import gmap strings list fin_maps.

(** ** Python string operations used by the program *)

Module Str.

Definition slash : ascii := "/"%char.

(** [s.startswith(p)] *)
Definition startswith (s p : string) : bool := String.prefix p s.

(** [s.endswith('/')] *)
Fixpoint endswith_slash (s : string) : bool :=
  match s with
  | EmptyString => false
  | String c EmptyString => Ascii.eqb c slash
  | String _ s' => endswith_slash s'
  end.

(** [s[n:]] *)
Fixpoint drop (n : nat) (s : string) : string :=
  match n, s with
  | O, _ => s
  | S n', String _ s' => drop n' s'
  | S _, EmptyString => EmptyString
  end.

(** ['/' in s] *)
Fixpoint has_slash (s : string) : bool :=
  match s with
  | EmptyString => false
  | String c s' => Ascii.eqb c slash || has_slash s'
  end.

(** [s == '/' * len(s)] *)
Fixpoint all_slashes (s : string) : bool :=
  match s with
  | EmptyString => true
  | String c s' => Ascii.eqb c slash && all_slashes s'
  end.

(** [s.split('/')]: never empty, [''.split('/') == ['']]. *)
Fixpoint split (s : string) : list string :=
  match s with
  | EmptyString => [EmptyString]
  | String c s' =>
      if Ascii.eqb c slash then EmptyString :: split s'
      else match split s' with
           | h :: t => String c h :: t
           | [] => [String c EmptyString]
           end
  end.

(** ['/'.join(l)] *)
Fixpoint join (l : list string) : string :=
  match l with
  | [] => EmptyString
  | [x] => x
  | x :: l' => x +:+ "/" +:+ join l'
  end.

(** [s[:s.rfind('/') + 1]]: everything up to and including the last slash. *)
Fixpoint upto_last_slash (s : string) : string :=
  match s with
  | EmptyString => EmptyString
  | String c s' =>
      if Ascii.eqb c slash || has_slash s' then String c (upto_last_slash s')
      else EmptyString
  end.

(** [s[s.rfind('/') + 1:]]: everything after the last slash. *)
Fixpoint after_last_slash (s : string) : string :=
  match s with
  | EmptyString => EmptyString
  | String c s' =>
      if Ascii.eqb c slash || has_slash s' then after_last_slash s'
      else s
  end.

(** [s.rstrip('/')] *)
Fixpoint rstrip_slash (s : string) : string :=
  match s with
  | EmptyString => EmptyString
  | String c s' =>
      match rstrip_slash s' with
      | EmptyString => if Ascii.eqb c slash then EmptyString else String c EmptyString
      | r => String c r
      end
  end.

Definition is_empty (s : string) : bool :=
  match s with EmptyString => true | _ => false end.

End Str.

(** ** Reading text

    [open(p, 'r', encoding='utf-8')] decodes the bytes of the file as UTF-8
    and, in its default universal newlines mode, gives [\n] for each of
    [\r\n], [\r] and [\n]. *)

Module Text.

Definition byte_in (lo hi : nat) (c : ascii) : bool :=
  (lo <=? nat_of_ascii c) && (nat_of_ascii c <=? hi).

(** A continuation byte, [0x80..0xBF]. *)
Definition continuation (c : ascii) : bool := byte_in 128 191 c.

(** The bytes are well-formed UTF-8, as the strict decoder of Python accepts
    them: no overlong form, no surrogate, nothing above [U+10FFFF]. *)
Fixpoint utf8_valid (s : string) : bool :=
  match s with
  | EmptyString => true
  | String b0 s1 =>
      let n0 := nat_of_ascii b0 in
      if n0 <? 128 then utf8_valid s1
      else if (194 <=? n0) && (n0 <=? 223) then
        match s1 with
        | String b1 s2 => continuation b1 && utf8_valid s2
        | _ => false
        end
      else if (224 <=? n0) && (n0 <=? 239) then
        match s1 with
        | String b1 (String b2 s3) =>
            (if n0 =? 224 then byte_in 160 191 b1
             else if n0 =? 237 then byte_in 128 159 b1
             else continuation b1)
            && continuation b2 && utf8_valid s3
        | _ => false
        end
      else if (240 <=? n0) && (n0 <=? 244) then
        match s1 with
        | String b1 (String b2 (String b3 s4)) =>
            (if n0 =? 240 then byte_in 144 191 b1
             else if n0 =? 244 then byte_in 128 143 b1
             else continuation b1)
            && continuation b2 && continuation b3 && utf8_valid s4
        | _ => false
        end
      else false
  end.

Definition CR : ascii := "013"%char.
Definition LF : ascii := "010"%char.

(** Universal newlines: [\r\n] and a lone [\r] are read as [\n]. *)
Fixpoint universal_newlines (s : string) : string :=
  match s with
  | EmptyString => EmptyString
  | String c s' =>
      if Ascii.eqb c CR then
        match s' with
        | String c' s'' =>
            if Ascii.eqb c' LF then String LF (universal_newlines s'')
            else String LF (universal_newlines s')
        | EmptyString => String LF EmptyString
        end
      else String c (universal_newlines s')
  end.

End Text.

(** ** [os.path] on POSIX ([posixpath]) *)

Module posixpath.

(** [os.path.isabs] *)
Definition isabs (p : string) : bool := Str.startswith p "/".

(** [os.path.join(a, b)] *)
Definition join (a b : string) : string :=
  if Str.startswith b "/" then b
  else if Str.is_empty a || Str.endswith_slash a then a +:+ b
  else a +:+ "/" +:+ b.

(** [os.path.dirname] *)
Definition dirname (p : string) : string :=
  let head := Str.upto_last_slash p in
  if negb (Str.is_empty head) && negb (Str.all_slashes head)
  then Str.rstrip_slash head
  else head.

(** [os.path.basename] *)
Definition basename (p : string) : string := Str.after_last_slash p.

(** One round of the component loop of [normpath]. *)
Definition normpath_step (initial_slashes : nat) (new_comps : list string)
    (comp : string) : list string :=
  if String.eqb comp EmptyString || String.eqb comp "." then new_comps
  else if negb (String.eqb comp "..")
          || (Nat.eqb initial_slashes 0 && bool_decide (new_comps = []))
          || (negb (bool_decide (new_comps = []))
              && bool_decide (last new_comps = Some ".."))
       then new_comps ++ [comp]
       else removelast new_comps.

(** [os.path.normpath] *)
Definition normpath (path : string) : string :=
  if Str.is_empty path then "."
  else
    let initial_slashes :=
      if Str.startswith path "/" then
        if Str.startswith path "//" && negb (Str.startswith path "///")
        then 2 else 1
      else 0 in
    let comps := fold_left (normpath_step initial_slashes) (Str.split path) [] in
    let path' := Str.join comps in
    let path'' :=
      match initial_slashes with
      | 0 => path'
      | 1 => "/" +:+ path'
      | _ => "//" +:+ path'
      end in
    if Str.is_empty path'' then "." else path''.

(** [os.path.abspath], given the result of [os.getcwd()]. *)
Definition abspath (getcwd : string) (path : string) : string :=
  if isabs path then normpath path else normpath (join getcwd path).

End posixpath.


(** ** The world: filesystem, working directory, clock, call log, stdout *)

(** A resolved path: the names from the root down.  There are no symbolic or
    hard links, so a resolved path identifies a file. *)
Abbreviation path := (list string).

Inductive node :=
  | File (content : string) (mtime : nat)
  | Dir.

#[global] Instance node_eq_dec : EqDecision node.
Proof. solve_decision. Defined.

(** Python exceptions the program can meet.  All but [AttributeError] and
    [UnicodeDecodeError] (a [ValueError]) are subclasses of [OSError]
    ([shutil.SameFileError] through [shutil.Error]; pdfkit raises [IOError],
    an alias of [OSError]). *)
Inductive exn :=
  | FileNotFoundError
  | FileExistsError
  | NotADirectoryError
  | IsADirectoryError
  | SameFileError
  | IOError
  | AttributeError
  | UnicodeDecodeError.

Definition is_OSError (e : exn) : bool :=
  match e with AttributeError | UnicodeDecodeError => false | _ => true end.

(** The calls the program makes to the filesystem interface, as logged. *)
Inductive call :=
  | CallExists (p : string)
  | CallMakedirs (p : string)
  | CallCopy2 (src dst : string)
  | CallRead (p : string)
  | CallWrite (p : string)
  | CallRemove (p : string)
  | CallRender (output_path : string).

Record world := World {
  nodes : gmap path node;
  cwd : path;
  clock : nat;
  trace : list call;
  stdout : list string
}.

Definition set_nodes (m : gmap path node) (w : world) : world :=
  World m (cwd w) (clock w) (trace w) (stdout w).
Definition tick (w : world) : world :=
  World (nodes w) (cwd w) (S (clock w)) (trace w) (stdout w).
Definition log (c : call) (w : world) : world :=
  World (nodes w) (cwd w) (clock w) (trace w ++ [c]) (stdout w).
Definition emit (line : string) (w : world) : world :=
  World (nodes w) (cwd w) (clock w) (trace w) (stdout w ++ [line]).

(** *** Path resolution *)

Module FS.

(** The root always exists and is a directory. *)
Definition lookup_node (m : gmap path node) (k : path) : option node :=
  match k with
  | [] => Some Dir
  | _ => m !! k
  end.

Definition special (c : string) : bool :=
  String.eqb c EmptyString || String.eqb c "." || String.eqb c "..".

(** Entering component [c] from directory [cur]. *)
Definition enter (cur : path) (c : string) : path :=
  if String.eqb c EmptyString || String.eqb c "." then cur
  else if String.eqb c ".." then removelast cur
  else cur ++ [c].

(** Walk the components from [cur]; every directory that is traversed has
    to exist and be a directory, the final name need not exist. *)
Fixpoint walk (m : gmap path node) (cur : path) (comps : list string)
    : exn + path :=
  match comps with
  | [] => inr cur
  | c :: rest =>
      match lookup_node m cur with
      | Some Dir => walk m (enter cur c) rest
      | Some (File _ _) => inl NotADirectoryError
      | None => inl FileNotFoundError
      end
  end.

Definition start (w : world) (p : string) : path :=
  if posixpath.isabs p then [] else cwd w.

(** The resolved path a string names, if its directories can be traversed. *)
Definition locate (w : world) (p : string) : exn + path :=
  if Str.is_empty p then inl FileNotFoundError
  else walk (nodes w) (start w p) (Str.split p).

(** [os.stat] *)
Definition stat (w : world) (p : string) : exn + node :=
  match locate w p with
  | inl e => inl e
  | inr k =>
      match lookup_node (nodes w) k with
      | Some n => inr n
      | None => inl FileNotFoundError
      end
  end.

Definition exists_ (w : world) (p : string) : bool :=
  match stat w p with inr _ => true | inl _ => false end.

Definition isdir (w : world) (p : string) : bool :=
  match stat w p with inr Dir => true | _ => false end.

Definition isfile (w : world) (p : string) : bool :=
  match stat w p with inr (File _ _) => true | _ => false end.

(** [os.path.samefile], with a failing [stat] read as "not the same". *)
Definition samefile (w : world) (a b : string) : bool :=
  match locate w a, locate w b with
  | inr ka, inr kb =>
      bool_decide (ka = kb)
      && match lookup_node (nodes w) ka with Some _ => true | None => false end
  | _, _ => false
  end.

(** The components of a path without its trailing slashes. *)
Fixpoint strip_trailing_empty (comps : list string) : list string :=
  match comps with
  | [] => []
  | c :: rest =>
      match strip_trailing_empty rest with
      | [] => if Str.is_empty c then [] else [c]
      | r => c :: r
      end
  end.

(** Where [open(p, 'w')] would write: the resolved path of a regular file
    to truncate or of a new name in an existing directory.  A path with a
    trailing slash is refused as a directory once the directories before its
    last name are traversed, whether or not that name exists. *)
Definition locate_for_write (w : world) (p : string) : exn + path :=
  if Str.endswith_slash p then
    match walk (nodes w) (start w p) (strip_trailing_empty (Str.split p)) with
    | inl e => inl e
    | inr _ => inl IsADirectoryError
    end
  else
    match locate w p with
    | inl e => inl e
    | inr k =>
        match lookup_node (nodes w) k with
        | Some Dir => inl IsADirectoryError
        | Some (File _ _) => inr k
        | None =>
            match last (Str.split p) with
            | Some c => if special c then inl FileNotFoundError else inr k
            | None => inl FileNotFoundError
            end
        end
    end.

(** The directories [os.makedirs(_, exist_ok=True)] leaves behind: every
    missing directory on the way is created; meeting a regular file is an
    error ([FileExistsError] for the last name, with or without trailing
    slashes, since it is not a directory; [NotADirectoryError] before), and
    what was created up to there stays. *)
Fixpoint mkdirs (m : gmap path node) (cur : path) (comps : list string)
    : gmap path node * option exn :=
  match comps with
  | [] => (m, None)
  | c :: rest =>
      match lookup_node m cur with
      | Some Dir =>
          if special c then mkdirs m (enter cur c) rest
          else
            match lookup_node m (cur ++ [c]) with
            | Some Dir => mkdirs m (cur ++ [c]) rest
            | Some (File _ _) =>
                (m, Some (if forallb Str.is_empty rest
                          then FileExistsError
                          else NotADirectoryError))
            | None => mkdirs (<[cur ++ [c] := Dir]> m) (cur ++ [c]) rest
            end
      | Some (File _ _) => (m, Some NotADirectoryError)
      | None => (m, Some FileNotFoundError)
      end
  end.

(** A filesystem is a tree: whatever exists lies in a directory. *)
Definition wf (m : gmap path node) : Prop :=
  map_Forall (fun k _ => lookup_node m (removelast k) = Some Dir) m.

#[global] Instance wf_dec (m : gmap path node) : Decision (wf m).
Proof. unfold wf. apply _. Defined.

(** [os.getcwd()] *)
Definition getcwd (w : world) : string := "/" +:+ Str.join (cwd w).

End FS.

(** ** Outcomes and the state monad of the program *)

Inductive outcome (A : Type) :=
  | Return (a : A)
  | Raise (e : exn)
  | Exit (code : Z).
Arguments Return {A} a.
Arguments Raise {A} e.
Arguments Exit {A} code.

(** A computation runs in a world and leaves a world behind, also when it
    raises: what was written before the exception stays written. *)
Definition M (A : Type) : Type := world -> outcome A * world.

Definition ret {A} (a : A) : M A := fun w => (Return a, w).
Definition raise {A} (e : exn) : M A := fun w => (Raise e, w).
Definition sys_exit {A} (code : Z) : M A := fun w => (Exit code, w).
Definition bind {A B} (m : M A) (k : A -> M B) : M B :=
  fun w =>
    match m w with
    | (Return a, w') => k a w'
    | (Raise e, w') => (Raise e, w')
    | (Exit c, w') => (Exit c, w')
    end.

Declare Scope py_scope.
Delimit Scope py_scope with py.
Notation "x <- m ;; k" := (bind m (fun x => k))
  (at level 100, m at next level, right associativity) : py_scope.
Notation "m ;;; k" := (bind m (fun _ => k))
  (at level 100, right associativity) : py_scope.
Open Scope py_scope.

(** [try: m except OSError: h] *)
Definition try_except_OSError {A} (m : M A) (h : M A) : M A :=
  fun w =>
    match m w with
    | (Raise e, w') => if is_OSError e then h w' else (Raise e, w')
    | r => r
    end.

(** [print(line)] *)
Definition print (line : string) : M unit := fun w => (Return tt, emit line w).

(** ** The filesystem interface of Python *)

(** [os.path.exists(p)] *)
Definition os_path_exists (p : string) : M bool :=
  fun w => (Return (FS.exists_ w p), log (CallExists p) w).

(** [os.makedirs(p, exist_ok=True)]; directories created before a failure
    stay. *)
Definition os_makedirs (p : string) : M unit :=
  fun w =>
    let w1 := log (CallMakedirs p) w in
    if Str.is_empty p then (Raise FileNotFoundError, w1)
    else
      match FS.mkdirs (nodes w) (FS.start w p) (Str.split p) with
      | (m, Some e) => (Raise e, set_nodes m w1)
      | (m, None) => (Return tt, set_nodes m w1)
      end.

(** [with open(p, 'r', encoding='utf-8') as f: f.read()]: the bytes are
    decoded, which fails on bytes that are not UTF-8, and newlines are
    translated. *)
Definition open_read (p : string) : M string :=
  fun w =>
    let w1 := log (CallRead p) w in
    match FS.stat w p with
    | inl e => (Raise e, w1)
    | inr Dir => (Raise IsADirectoryError, w1)
    | inr (File c _) =>
        if Text.utf8_valid c then (Return (Text.universal_newlines c), w1)
        else (Raise UnicodeDecodeError, w1)
    end.

(** [with open(p, 'w', encoding='utf-8') as f: f.write(content)]: the text
    is encoded, which gives the string that represents it, and on POSIX a
    newline is written as it is. *)
Definition open_write (p : string) (content : string) : M unit :=
  fun w =>
    let w1 := log (CallWrite p) w in
    match FS.locate_for_write w p with
    | inl e => (Raise e, w1)
    | inr k =>
        (Return tt, tick (set_nodes (<[k := File content (clock w)]> (nodes w)) w1))
    end.

(** [os.remove(p)] *)
Definition os_remove (p : string) : M unit :=
  fun w =>
    let w1 := log (CallRemove p) w in
    match FS.locate w p with
    | inl e => (Raise e, w1)
    | inr k =>
        match FS.lookup_node (nodes w) k with
        | Some (File _ _) => (Return tt, set_nodes (delete k (nodes w)) w1)
        | Some Dir => (Raise IsADirectoryError, w1)
        | None => (Raise FileNotFoundError, w1)
        end
    end.

(** [shutil.copyfile(src, dst)]: refuses to copy a file onto itself, reads
    the source, then truncates or creates the destination. *)
Definition shutil_copyfile (src dst : string) : M unit :=
  fun w =>
    if FS.samefile w src dst then (Raise SameFileError, w)
    else
      match FS.stat w src with
      | inl e => (Raise e, w)
      | inr Dir => (Raise IsADirectoryError, w)
      | inr (File c _) =>
          match FS.locate_for_write w dst with
          | inl e => (Raise e, w)
          | inr k =>
              (Return tt, tick (set_nodes (<[k := File c (clock w)]> (nodes w)) w))
          end
      end.

(** [shutil.copystat(src, dst)]: the destination takes the modification time
    of the source. *)
Definition shutil_copystat (src dst : string) : M unit :=
  fun w =>
    match FS.stat w src, FS.locate w dst with
    | inr (File _ t), inr k =>
        match FS.lookup_node (nodes w) k with
        | Some (File c _) => (Return tt, set_nodes (<[k := File c t]> (nodes w)) w)
        | _ => (Return tt, w)
        end
    | inl e, _ => (Raise e, w)
    | _, inl e => (Raise e, w)
    | _, _ => (Return tt, w)
    end.

(** [shutil.copy2(src, dst)]: a destination that is a directory receives the
    file under the source's base name. *)
Definition shutil_copy2 (src dst : string) : M unit :=
  fun w =>
    let w1 := log (CallCopy2 src dst) w in
    let dst' :=
      if FS.isdir w1 dst then posixpath.join dst (posixpath.basename src)
      else dst in
    (shutil_copyfile src dst' ;;; shutil_copystat src dst') w1.
(** ** The theme template *)

Definition dquote : string := String "034"%char EmptyString.

(** [generate_html_template]: the f-string of the source, piece by piece. *)
Definition generate_html_template
    (html_content bg_color text_color heading_color link_color code_bg
       border_color : string) : string :=
  "
    <!DOCTYPE html>
    <html>
    <head>
        <meta charset=" +:+
  dquote +:+
  "UTF-8" +:+
  dquote +:+
  ">
        <style>
            body {
                font-family: -apple-system, BlinkMacSystemFont, " +:+
  dquote +:+
  "Segoe UI" +:+
  dquote +:+
  ", Roboto, " +:+
  dquote +:+
  "Helvetica Neue" +:+
  dquote +:+
  ", Arial, sans-serif;
                line-height: 1.6;
                max-width: 800px;
                margin: 0 auto;
                padding: 20px;
                background-color: " +:+
  bg_color +:+
  ";
                color: " +:+
  text_color +:+
  ";
            }
            h1, h2, h3, h4, h5, h6 {
                color: " +:+
  heading_color +:+
  ";
                margin-top: 24px;
                margin-bottom: 16px;
                font-weight: 600;
                line-height: 1.25;
            }
            a {
                color: " +:+
  link_color +:+
  ";
                text-decoration: none;
            }
            a:hover {
                text-decoration: underline;
            }
            code {
                background-color: " +:+
  code_bg +:+
  ";
                padding: 0.2em 0.4em;
                border-radius: 3px;
                font-family: " +:+
  dquote +:+
  "SFMono-Regular" +:+
  dquote +:+
  ", Consolas, " +:+
  dquote +:+
  "Liberation Mono" +:+
  dquote +:+
  ", Menlo, monospace;
            }
            pre {
                background-color: " +:+
  code_bg +:+
  ";
                padding: 16px;
                border-radius: 6px;
                overflow: auto;
            }
            pre code {
                background-color: transparent;
                padding: 0;
            }
            img {
                max-width: 100%;
                height: auto;
                display: block;
                margin: 0 auto;
            }
            table {
                border-collapse: collapse;
                width: 100%;
                margin-bottom: 16px;
            }
            th, td {
                border: 1px solid " +:+
  border_color +:+
  ";
                padding: 6px 13px;
            }
            th {
                background-color: " +:+
  code_bg +:+
  ";
            }
            blockquote {
                padding: 0 1em;
                color: " +:+
  text_color +:+
  ";
                border-left: 0.25em solid " +:+
  border_color +:+
  ";
                margin: 0 0 16px 0;
            }
        </style>
    </head>
    <body>
        " +:+
  html_content +:+
  "
    </body>
    </html>
    ".

(** The template around its style element: what precedes the opening tag,
    the style sheet between the tags, and what follows the closing tag. *)
Definition template_head : string :=
  ("
    <!DOCTYPE html>
    <html>
    <head>
        <meta charset=" +:+ dquote +:+ "UTF-8" +:+ dquote +:+ ">
        ").

Definition theme_css
    (bg_color text_color heading_color link_color code_bg border_color : string)
    : string :=
  ("
            body {
                font-family: -apple-system, BlinkMacSystemFont, " +:+ dquote +:+ "Segoe UI" +:+ dquote +:+ ", Roboto, " +:+ dquote +:+ "Helvetica Neue" +:+ dquote +:+ ", Arial, sans-serif;
                line-height: 1.6;
                max-width: 800px;
                margin: 0 auto;
                padding: 20px;
                background-color: ") +:+
  bg_color +:+
  ";
                color: " +:+
  text_color +:+
  ";
            }
            h1, h2, h3, h4, h5, h6 {
                color: " +:+
  heading_color +:+
  ";
                margin-top: 24px;
                margin-bottom: 16px;
                font-weight: 600;
                line-height: 1.25;
            }
            a {
                color: " +:+
  link_color +:+
  ";
                text-decoration: none;
            }
            a:hover {
                text-decoration: underline;
            }
            code {
                background-color: " +:+
  code_bg +:+
  (";
                padding: 0.2em 0.4em;
                border-radius: 3px;
                font-family: " +:+ dquote +:+ "SFMono-Regular" +:+ dquote +:+ ", Consolas, " +:+ dquote +:+ "Liberation Mono" +:+ dquote +:+ ", Menlo, monospace;
            }
            pre {
                background-color: ") +:+
  code_bg +:+
  ";
                padding: 16px;
                border-radius: 6px;
                overflow: auto;
            }
            pre code {
                background-color: transparent;
                padding: 0;
            }
            img {
                max-width: 100%;
                height: auto;
                display: block;
                margin: 0 auto;
            }
            table {
                border-collapse: collapse;
                width: 100%;
                margin-bottom: 16px;
            }
            th, td {
                border: 1px solid " +:+
  border_color +:+
  ";
                padding: 6px 13px;
            }
            th {
                background-color: " +:+
  code_bg +:+
  ";
            }
            blockquote {
                padding: 0 1em;
                color: " +:+
  text_color +:+
  ";
                border-left: 0.25em solid " +:+
  border_color +:+
  ";
                margin: 0 0 16px 0;
            }
        ".

Definition template_tail (html_content : string) : string :=
  "
    </head>
    <body>
        " +:+
  html_content +:+
  "
    </body>
    </html>
    ".

(** ** The parsed document

    BeautifulSoup links the elements of the parse tree in document order,
    and [find_all] walks that chain.  [copy_images] reads and writes
    attribute dictionaries only, so the soup is the chain of its elements;
    an element is referred to by its place in the chain, and a write through
    such a reference is seen by every later read of the soup. *)

Inductive element :=
  | Tag (name : string) (attrs : list (string * string))
  | NavigableString (text : string).

Abbreviation soup := (list element).

(** [attrs.get(key)] *)
Fixpoint attrs_get (attrs : list (string * string)) (key : string)
    : option string :=
  match attrs with
  | [] => None
  | (k, v) :: rest => if String.eqb k key then Some v else attrs_get rest key
  end.

(** [attrs[key] = value]: an existing key keeps its place. *)
Fixpoint attrs_set (attrs : list (string * string)) (key value : string)
    : list (string * string) :=
  match attrs with
  | [] => [(key, value)]
  | (k, v) :: rest =>
      if String.eqb k key then (k, value) :: rest
      else (k, v) :: attrs_set rest key value
  end.

(** [tag.get(key)] for the element at place [i]. *)
Definition tag_get (sp : soup) (i : nat) (key : string) : option string :=
  match sp !! i with
  | Some (Tag _ attrs) => attrs_get attrs key
  | _ => None
  end.

(** [tag[key] = value] for the element at place [i]. *)
Definition tag_set (sp : soup) (i : nat) (key value : string) : soup :=
  match sp !! i with
  | Some (Tag name attrs) => <[i := Tag name (attrs_set attrs key value)]> sp
  | _ => sp
  end.

Definition is_tag (name : string) (e : element) : bool :=
  match e with
  | Tag n _ => String.eqb n name
  | NavigableString _ => false
  end.

(** The places, from [i] on, of the tags called [name]. *)
Fixpoint find_all_from (i : nat) (sp : soup) (name : string) : list nat :=
  match sp with
  | [] => []
  | e :: rest =>
      if is_tag name e then i :: find_all_from (S i) rest name
      else find_all_from (S i) rest name
  end.

(** [soup.find_all(name)]: references to the tags, in document order. *)
Definition find_all (sp : soup) (name : string) : list nat :=
  find_all_from 0 sp name.

(** ** The libraries the program delegates to

    The HTML parser and serializer (BeautifulSoup with [html.parser]), the
    Markdown renderer (markdown2 with the extras the program passes) and the
    renderer binary wkhtmltopdf are external; the program is modelled over
    any behaviour they may have.  [wkhtmltopdf files dir html options] is the
    PDF the binary produces for the document when run in directory [dir] of
    the filesystem [files] (it may read the images the document refers to),
    or [None] when it reports an error or exits with a non-zero status; in
    that case [wkhtmltopdf_leaves files dir html options] is what it wrote to
    the output path before, if it wrote. *)
Class Libraries := {
  BeautifulSoup : string -> soup;
  soup_str : soup -> string;
  markdown2_markdown : string -> string;
  wkhtmltopdf_installed : bool;
  wkhtmltopdf :
    gmap path node -> path -> string -> list (string * option string) ->
    option string;
  wkhtmltopdf_leaves :
    gmap path node -> path -> string -> list (string * option string) ->
    option string
}.

Section Program.
Context {L : Libraries}.

(** What pdfkit does once the source is known: find the binary, run it, and
    check its report and that the output file was written.  The error is
    raised after the binary has run: what a failing run wrote stays. *)
Definition pdfkit_to_pdf (input : string) (options : list (string * option string))
    (output_path : string) : M unit :=
  fun w =>
    if negb wkhtmltopdf_installed then (Raise IOError, w)
    else
      match wkhtmltopdf (nodes w) (cwd w) input options with
      | None =>
          match wkhtmltopdf_leaves (nodes w) (cwd w) input options,
                FS.locate_for_write w output_path with
          | Some partial, inr k =>
              (Raise IOError,
               tick (set_nodes (<[k := File partial (clock w)]> (nodes w)) w))
          | _, _ => (Raise IOError, w)
          end
      | Some pdf =>
          match FS.locate_for_write w output_path with
          | inl _ => (Raise IOError, w)
          | inr k =>
              (Return tt, tick (set_nodes (<[k := File pdf (clock w)]> (nodes w)) w))
          end
      end.

(** [pdfkit.from_string(input, output_path)] *)
Definition pdfkit_from_string (input output_path : string) : M unit :=
  fun w => pdfkit_to_pdf input [] output_path (log (CallRender output_path) w).

(** [pdfkit.from_file(input, output_path, options=options)]: the source file
    is checked first; a source the binary cannot read is an error of the
    binary. *)
Definition pdfkit_from_file (input output_path : string)
    (options : list (string * option string)) : M unit :=
  fun w =>
    let w1 := log (CallRender output_path) w in
    match FS.stat w1 input with
    | inr (File html _) => pdfkit_to_pdf html options output_path w1
    | _ => (Raise IOError, w1)
    end.

(** *** [copy_images] *)

(** A string is true in a condition when it is not empty. *)
Definition truthy (s : string) : bool := negb (Str.is_empty s).

(** The source as the loop body uses it after the two prefix cases. *)
Definition normalized_src (input_dir src : string) : string :=
  if Str.startswith src "./" then Str.drop 2 src
  else if Str.startswith src "../"
       then posixpath.normpath (posixpath.join input_dir src)
       else src.

(** The body of [for img in img_tags], for the tag at place [img]. *)
Definition copy_images_body (input_dir output_dir : string) (img : nat)
    (sp : soup) : M soup :=
  match tag_get sp img "src" with
  | Some src0 =>
      if truthy src0 then
        let src := normalized_src input_dir src0 in
        let img_path := posixpath.join input_dir src in
        found <- os_path_exists img_path ;;
        if (found : bool) then
          let rel_path := posixpath.dirname src in
          (if truthy rel_path
           then os_makedirs (posixpath.join output_dir rel_path)
           else ret tt) ;;;
          shutil_copy2 img_path (posixpath.join output_dir src) ;;;
          ret (tag_set sp img "src" src)
        else ret sp
      else ret sp
  | None => ret sp
  end.

Fixpoint copy_images_loop (input_dir output_dir : string) (img_tags : list nat)
    (sp : soup) : M soup :=
  match img_tags with
  | [] => ret sp
  | img :: rest =>
      sp' <- copy_images_body input_dir output_dir img sp ;;
      copy_images_loop input_dir output_dir rest sp'
  end.

Definition copy_images (html_content input_file output_dir : string)
    (no_images : bool) : M string :=
  if no_images then ret html_content
  else
    fun w =>
      let input_dir := posixpath.dirname (posixpath.abspath (FS.getcwd w) input_file) in
      (os_makedirs output_dir ;;;
       let sp := BeautifulSoup html_content in
       let img_tags := find_all sp "img" in
       sp' <- copy_images_loop input_dir output_dir img_tags sp ;;
       ret (soup_str sp')) w.

(** *** The conversions *)

Definition convert_markdown_to_html
    (input_file bg_color text_color heading_color link_color code_bg
       border_color : string) : M string :=
  markdown_text <- open_read input_file ;;
  let html := markdown2_markdown markdown_text in
  ret (generate_html_template html bg_color text_color heading_color
         link_color code_bg border_color).

Definition convert_html_to_pdf (html_file output_file page_size margin : string)
    : M unit :=
  let options :=
    [("page-size", Some page_size);
     ("margin-top", Some margin);
     ("margin-right", Some margin);
     ("margin-bottom", Some margin);
     ("margin-left", Some margin);
     ("encoding", Some "UTF-8");
     ("no-outline", None)] in
  pdfkit_from_file html_file output_file options.

(** *** [main] *)

Inductive command := md_to_pdf | md_to_html | html_to_pdf.

(** The namespace [parse_arguments] returns.  Without a subcommand argparse
    leaves [command] at [None] and defines none of the other attributes. *)
Record Namespace := {
  args_command : option command;
  args_input : string;
  args_output : option string;
  args_bg_color : string;
  args_text_color : string;
  args_heading_color : string;
  args_link_color : string;
  args_code_bg : string;
  args_border_color : string;
  args_no_images : bool;
  args_page_size : string;
  args_margin : string
}.

Definition default_output (c : command) : string :=
  match c with
  | md_to_pdf => "output.pdf"
  | md_to_html => "output.html"
  | html_to_pdf => "output.pdf"
  end.

Definition main (args : Namespace) : M unit :=
  (* Check if wkhtmltopdf is installed *)
  try_except_OSError
    (pdfkit_from_string EmptyString "test.pdf")
    (print "Error: wkhtmltopdf is not installed. Please install it first." ;;;
     print "On Ubuntu/Debian: sudo apt-get install wkhtmltopdf" ;;;
     print "On macOS: brew install wkhtmltopdf" ;;;
     print "On Windows: Download from https://wkhtmltopdf.org/downloads.html" ;;;
     sys_exit 1) ;;;
  match args_command args with
  | None => raise AttributeError
  | Some cmd =>
      (* Set default output file names *)
      let output :=
        match args_output args with
        | Some o => if truthy o then o else default_output cmd
        | None => default_output cmd
        end in
      fun w =>
        (* Create output directory for images *)
        let output_dir := posixpath.dirname (posixpath.abspath (FS.getcwd w) output) in
        let output_dir := if truthy output_dir then output_dir else "." in
        match cmd with
        | md_to_pdf =>
            (html_content <-
               convert_markdown_to_html (args_input args) (args_bg_color args)
                 (args_text_color args) (args_heading_color args)
                 (args_link_color args) (args_code_bg args)
                 (args_border_color args) ;;
             html_content <-
               copy_images html_content (args_input args) output_dir
                 (args_no_images args) ;;
             let temp_html := "temp.html" in
             open_write temp_html html_content ;;;
             convert_html_to_pdf temp_html output (args_page_size args)
               (args_margin args) ;;;
             os_remove temp_html) w
        | md_to_html =>
            (html_content <-
               convert_markdown_to_html (args_input args) (args_bg_color args)
                 (args_text_color args) (args_heading_color args)
                 (args_link_color args) (args_code_bg args)
                 (args_border_color args) ;;
             html_content <-
               copy_images html_content (args_input args) output_dir
                 (args_no_images args) ;;
             open_write output html_content) w
        | html_to_pdf =>
            (html_content <- open_read (args_input args) ;;
             html_content <-
               copy_images html_content (args_input args) output_dir
                 (args_no_images args) ;;
             let temp_html := "temp.html" in
             open_write temp_html html_content ;;;
             convert_html_to_pdf temp_html output (args_page_size args)
               (args_margin args) ;;;
             os_remove temp_html) w
        end
  end.

(** *** Parts of [main], named for the statements below *)

(** The startup check, as [main] runs it. *)
Definition check_wkhtmltopdf : M unit :=
  try_except_OSError
    (pdfkit_from_string EmptyString "test.pdf")
    (print "Error: wkhtmltopdf is not installed. Please install it first." ;;;
     print "On Ubuntu/Debian: sudo apt-get install wkhtmltopdf" ;;;
     print "On macOS: brew install wkhtmltopdf" ;;;
     print "On Windows: Download from https://wkhtmltopdf.org/downloads.html" ;;;
     sys_exit 1).

(** What the handler of the startup check prints. *)
Definition install_instructions : list string :=
  ["Error: wkhtmltopdf is not installed. Please install it first.";
   "On Ubuntu/Debian: sudo apt-get install wkhtmltopdf";
   "On macOS: brew install wkhtmltopdf";
   "On Windows: Download from https://wkhtmltopdf.org/downloads.html"].

(** The last three statements of the two PDF-producing branches. *)
Definition render_through_temp (html_content output page_size margin : string)
    : M unit :=
  open_write "temp.html" html_content ;;;
  convert_html_to_pdf "temp.html" output page_size margin ;;;
  os_remove "temp.html".

(** The output path [main] settles on for a command. *)
Definition output_of (args : Namespace) (cmd : command) : string :=
  match args_output args with
  | Some o => if truthy o then o else default_output cmd
  | None => default_output cmd
  end.

(** What [main] does in a PDF-producing branch before it writes [temp.html]:
    the startup check, the HTML from the input, the relocation of images. *)
Definition pdf_document (args : Namespace) (cmd : command) : M string :=
  check_wkhtmltopdf ;;;
  fun w =>
    let output_dir :=
      posixpath.dirname (posixpath.abspath (FS.getcwd w) (output_of args cmd)) in
    let output_dir := if truthy output_dir then output_dir else "." in
    (html_content <-
       match cmd with
       | html_to_pdf => open_read (args_input args)
       | _ =>
           convert_markdown_to_html (args_input args) (args_bg_color args)
             (args_text_color args) (args_heading_color args)
             (args_link_color args) (args_code_bg args) (args_border_color args)
       end ;;
     copy_images html_content (args_input args) output_dir (args_no_images args)) w.

End Program.

(** ** Notions used in the statements *)

(** [sub] occurs in [s]. *)
Definition contains (s sub : string) : Prop :=
  exists pre post, s = pre +:+ sub +:+ post.

(** [decl] occurs in [s] between an opening [style] tag and a closing
    one. *)
Definition in_style_block (s decl : string) : Prop :=
  exists head css tail,
    s = head +:+ "<style>" +:+ css +:+ "</style>" +:+ tail
    /\ contains css decl.

(** The working directory is [dir], it is a directory, and it holds a
    regular file called [name]. *)
Definition holds_file (dir : path) (name : string) (w : world) : Prop :=
  cwd w = dir
  /\ FS.lookup_node (nodes w) dir = Some Dir
  /\ exists c t, nodes w !! (dir ++ [name]) = Some (File c t).

(** A computation preserves [holds_file dir name]. *)
Definition preserves (dir : path) (name : string) {A : Type} (m : M A) : Prop :=
  forall w r w', holds_file dir name w -> m w = (r, w') -> holds_file dir name w'.

(** A property of the filesystem (nodes and working directory) that the four
    kinds of change the program makes keep: a change of log, clock or output
    only; a regular file written where no directory is; directories made by
    [os.makedirs]; and the removal of the regular file [temp.html] of the
    working directory. *)
Record stable (P : world -> Prop) : Prop := {
  stable_same : forall w w0,
    nodes w0 = nodes w -> cwd w0 = cwd w -> P w -> P w0;
  stable_write : forall w w0 k c t,
    FS.lookup_node (nodes w) k <> Some Dir ->
    nodes w0 = <[k := File c t]> (nodes w) -> cwd w0 = cwd w -> P w -> P w0;
  stable_mkdirs : forall w w0 cur comps,
    nodes w0 = (FS.mkdirs (nodes w) cur comps).1 -> cwd w0 = cwd w -> P w -> P w0;
  stable_remove_temp : forall w w0 c t,
    FS.lookup_node (nodes w) (cwd w) = Some Dir ->
    nodes w !! (cwd w ++ ["temp.html"]) = Some (File c t) ->
    nodes w0 = delete (cwd w ++ ["temp.html"]) (nodes w) -> cwd w0 = cwd w ->
    P w -> P w0
}.

(** A computation keeps [P], however it ends. *)
Definition maintains (P : world -> Prop) {A : Type} (m : M A) : Prop :=
  forall w r w', P w -> m w = (r, w') -> P w'.

(** The working directory is [dir] and something exists at [k]. *)
Definition stays (dir k : path) (w : world) : Prop :=
  cwd w = dir /\ is_Some (nodes w !! k).

(** The working directory is [dir] and [k] is a directory. *)
Definition stays_dir (dir k : path) (w : world) : Prop :=
  cwd w = dir /\ nodes w !! k = Some Dir.

(** Two elements differ at most in the value of the [src] attribute: same
    kind, same name, same attribute keys in the same order, same values for
    every other key. *)
Definition same_but_src (e e' : element) : Prop :=
  match e, e' with
  | Tag n a, Tag n' a' =>
      n' = n /\ map fst a' = map fst a
      /\ forall key, key <> "src" -> attrs_get a' key = attrs_get a key
  | NavigableString t, NavigableString t' => t' = t
  | _, _ => False
  end.

(** The element at [img] has nothing to relocate in world [w]: no source, an
    empty one, or one that resolves to nothing. *)
Definition nothing_to_relocate (input_dir : string) (sp : soup) (w : world)
    (img : nat) : Prop :=
  match tag_get sp img "src" with
  | None => True
  | Some src0 =>
      truthy src0 = false
      \/ FS.exists_ w (posixpath.join input_dir (normalized_src input_dir src0)) = false
  end.


(** ** Scenarios

    Concrete worlds, arguments and library behaviours on which the program
    is evaluated below. *)

(** The serialized form of one image element. *)
Definition img_html (src : string) : string :=
  "<img src=" +:+ dquote +:+ src +:+ dquote +:+ "/>".

(** A parser and serializer for documents made of one image element: the
    document [img_html src] is one [img] tag with its [src] attribute. *)
Definition one_img_parse (html : string) : soup :=
  [Tag "img" [("src", String.substring 10 (String.length html - 13) html)]].

Definition one_img_str (sp : soup) : string :=
  match sp with
  | [Tag "img" [("src", src)]] => img_html src
  | _ => EmptyString
  end.

(** A renderer that produces a PDF for every document. *)
Definition libs_ok : Libraries := {|
  BeautifulSoup := one_img_parse;
  soup_str := one_img_str;
  markdown2_markdown := fun text => "<p>" +:+ text +:+ "</p>";
  wkhtmltopdf_installed := true;
  wkhtmltopdf := fun _ _ _ _ => Some "%PDF-1.4";
  wkhtmltopdf_leaves := fun _ _ _ _ => None
|}.

(** A renderer that is installed and renders the empty probe document, but
    reports an error on every other document. *)
Definition libs_render_fails : Libraries := {|
  BeautifulSoup := one_img_parse;
  soup_str := one_img_str;
  markdown2_markdown := fun text => "<p>" +:+ text +:+ "</p>";
  wkhtmltopdf_installed := true;
  wkhtmltopdf := fun _ _ html _ =>
    if Str.is_empty html then Some "%PDF-1.4" else None;
  wkhtmltopdf_leaves := fun _ _ _ _ => None
|}.

(** A parser and serializer for a document without image elements. *)
Definition libs_no_img : Libraries := {|
  BeautifulSoup := fun _ => [Tag "p" []; NavigableString "Hello"];
  soup_str := fun _ => "<p>Hello</p>";
  markdown2_markdown := fun text => "<p>" +:+ text +:+ "</p>";
  wkhtmltopdf_installed := true;
  wkhtmltopdf := fun _ _ _ _ => Some "%PDF-1.4";
  wkhtmltopdf_leaves := fun _ _ _ _ => None
|}.

(** No renderer on the host. *)
Definition libs_no_renderer : Libraries := {|
  BeautifulSoup := one_img_parse;
  soup_str := one_img_str;
  markdown2_markdown := fun text => "<p>" +:+ text +:+ "</p>";
  wkhtmltopdf_installed := false;
  wkhtmltopdf := fun _ _ _ _ => None;
  wkhtmltopdf_leaves := fun _ _ _ _ => None
|}.

(** A project directory [/d] with a document, a page and a picture, and a
    picture [/a.png] above it; the program runs in [/d]. *)
Definition project_world : world := {|
  nodes :=
    <[ ["a.png"] := File "PNG-a" 3 ]>
    (<[ ["d"] := Dir ]>
    (<[ ["d"; "doc.md"] := File "Hello" 5 ]>
    (<[ ["d"; "page.html"] := File "<p>Hello</p>" 6 ]>
    (<[ ["d"; "pic.png"] := File "PNG-pic" 7 ]> ∅))));
  cwd := ["d"];
  clock := 100;
  trace := [];
  stdout := []
|}.

Definition args_of (c : option command) (input : string) (output : option string)
    (no_images : bool) : Namespace := {|
  args_command := c;
  args_input := input;
  args_output := output;
  args_bg_color := "#0d1117";
  args_text_color := "#c9d1d9";
  args_heading_color := "#e6f1ff";
  args_link_color := "#58a6ff";
  args_code_bg := "#161b22";
  args_border_color := "#30363d";
  args_no_images := no_images;
  args_page_size := "A4";
  args_margin := "10mm"
|}.

(** A site in [/d] with a picture below the document, [/d/img/logo.png], and
    an output directory [/d/out] that exists already. *)
Definition site_world : world := {|
  nodes :=
    <[ ["d"] := Dir ]>
    (<[ ["d"; "index.md"] := File "Site" 4 ]>
    (<[ ["d"; "img"] := Dir ]>
    (<[ ["d"; "img"; "logo.png"] := File "PNG-logo" 9 ]>
    (<[ ["d"; "out"] := Dir ]> ∅))));
  cwd := ["d"];
  clock := 50;
  trace := [];
  stdout := []
|}.

(** * Properties *)

(** ** Sanity checks of the path functions *)

Example normpath_examples :
  posixpath.normpath "/d/sub/../a.png" = "/d/a.png"
  /\ posixpath.normpath "/d/../a.png" = "/a.png"
  /\ posixpath.normpath "a//b/./c/" = "a/b/c"
  /\ posixpath.normpath "../x" = "../x"
  /\ posixpath.normpath "/../x" = "/x"
  /\ posixpath.normpath "//x" = "//x"
  /\ posixpath.normpath "///x" = "/x"
  /\ posixpath.normpath "a/.." = ".".
Proof. vm_compute. repeat split. Qed.

Example dirname_examples :
  posixpath.dirname "/d/doc.md" = "/d"
  /\ posixpath.dirname "/doc.md" = "/"
  /\ posixpath.dirname "doc.md" = EmptyString
  /\ posixpath.dirname "img/pic.png" = "img"
  /\ posixpath.dirname "a//b" = "a"
  /\ posixpath.dirname "//b" = "//"
  /\ posixpath.basename "/d/doc.md" = "doc.md"
  /\ posixpath.basename "/d/" = EmptyString
  /\ posixpath.join "/d" "img/pic.png" = "/d/img/pic.png"
  /\ posixpath.join "/d" "/abs" = "/abs"
  /\ posixpath.join "/d/" "x" = "/d/x"
  /\ posixpath.join "/d" EmptyString = "/d/".
Proof. vm_compute. repeat split. Qed.

Example resolution_examples :
  FS.stat project_world "pic.png" = inr (File "PNG-pic" 7)
  /\ FS.stat project_world "/d/../a.png" = inr (File "PNG-a" 3)
  /\ FS.stat project_world "./sub/../pic.png" = inl FileNotFoundError
  /\ FS.stat project_world "pic.png/" = inl NotADirectoryError
  /\ FS.isdir project_world ".." = true
  /\ FS.samefile project_world "/d/pic.png" "pic.png" = true.
Proof. vm_compute. repeat split. Qed.

(** ** The soup: reads after writes *)

Lemma tag_set_lookup_ne (sp : soup) (i j : nat) (key value : string) :
  i <> j -> tag_set sp i key value !! j = sp !! j.
Proof.
  intros Hij. unfold tag_set.
  destruct (sp !! i) as [[name attrs|text]|]; try reflexivity.
  by apply list_lookup_insert_ne.
Qed.

Lemma attrs_get_set (attrs : list (string * string)) (key value : string) :
  attrs_get (attrs_set attrs key value) key = Some value.
Proof.
  induction attrs as [|[k v] rest IH]; simpl.
  - by rewrite String.eqb_refl.
  - destruct (String.eqb k key) eqn:E; simpl; rewrite E; [reflexivity | exact IH].
Qed.

Lemma tag_get_set (sp : soup) (i : nat) (key value old : string) :
  tag_get sp i key = Some old ->
  tag_get (tag_set sp i key value) i key = Some value.
Proof.
  unfold tag_get, tag_set. intros H.
  destruct (sp !! i) as [[name attrs|text]|] eqn:E; try discriminate.
  rewrite list_lookup_insert_eq; [apply attrs_get_set |].
  by apply lookup_lt_Some in E.
Qed.

Section Properties.
Context {L : Libraries}.

(** ** The loop of [copy_images] *)

(** One round of the loop writes only through its own reference. *)
Lemma copy_images_body_other (input_dir output_dir : string) (img j : nat)
    (sp sp' : soup) (w w' : world) :
  copy_images_body input_dir output_dir img sp w = (Return sp', w') ->
  img <> j -> sp' !! j = sp !! j.
Proof.
  unfold copy_images_body. intros H Hne.
  destruct (tag_get sp img "src") as [src0|]; [|by inversion H].
  destruct (truthy src0); [|by inversion H].
  unfold bind in H. simpl in H.
  destruct (FS.exists_ w _); [|by inversion H].
  match type of H with
  | context [if ?c then _ else _] => destruct c
  end.
  - destruct (os_makedirs _ _) as [[[]|e|c] w1]; try discriminate.
    destruct (shutil_copy2 _ _ _) as [[[]|e|c] w2]; try discriminate.
    inversion H; subst. by apply tag_set_lookup_ne.
  - unfold ret in H.
    destruct (shutil_copy2 _ _ _) as [[[]|e|c] w2]; try discriminate.
    inversion H; subst. by apply tag_set_lookup_ne.
Qed.

Lemma copy_images_loop_other (input_dir output_dir : string) (img_tags : list nat)
    (j : nat) :
  forall (sp sp' : soup) (w w' : world),
    copy_images_loop input_dir output_dir img_tags sp w = (Return sp', w') ->
    j ∉ img_tags -> sp' !! j = sp !! j.
Proof.
  induction img_tags as [|img rest IH]; intros sp sp' w w' H Hj; simpl in H.
  - by inversion H.
  - unfold bind in H.
    destruct (copy_images_body input_dir output_dir img sp w)
      as [[sp1|e|c] w1] eqn:Hbody; try discriminate.
    apply not_elem_of_cons in Hj as [Hne Hrest].
    rewrite (IH _ _ _ _ H Hrest).
    eapply copy_images_body_other; eauto.
Qed.

Lemma copy_images_loop_tag_get (input_dir output_dir : string) (img_tags : list nat)
    (j : nat) (key : string) (sp sp' : soup) (w w' : world) :
  copy_images_loop input_dir output_dir img_tags sp w = (Return sp', w') ->
  j ∉ img_tags -> tag_get sp' j key = tag_get sp j key.
Proof.
  intros H Hj. unfold tag_get.
  by rewrite (copy_images_loop_other _ _ _ _ _ _ _ _ H Hj).
Qed.

(** [find_all] never lists a place twice. *)
Lemma find_all_from_ge (sp : soup) (name : string) :
  forall i j, j ∈ find_all_from i sp name -> i <= j.
Proof.
  induction sp as [|e rest IH]; intros i j Hj; simpl in Hj.
  - by apply elem_of_nil in Hj.
  - destruct (is_tag name e).
    + apply elem_of_cons in Hj as [->|Hj]; [lia|]. apply IH in Hj. lia.
    + apply IH in Hj. lia.
Qed.

Lemma find_all_NoDup (sp : soup) (name : string) : NoDup (find_all sp name).
Proof.
  unfold find_all. generalize 0.
  induction sp as [|e rest IH]; intros i; simpl; [constructor|].
  destruct (is_tag name e); [|apply IH].
  constructor; [|apply IH].
  intros Hin. apply find_all_from_ge in Hin. lia.
Qed.

(** [find_all] lists exactly the tags of that name. *)
Lemma find_all_from_spec (sp : soup) (name : string) :
  forall i j,
    j ∈ find_all_from i sp name <->
    exists e, i <= j /\ sp !! (j - i) = Some e /\ is_tag name e = true.
Proof.
  induction sp as [|e rest IH]; intros i j; simpl.
  - split; [intros H; by apply elem_of_nil in H | intros (e & _ & H & _); discriminate].
  - destruct (is_tag name e) eqn:E.
    + rewrite elem_of_cons, IH. split.
      * intros [->|(e' & Hle & Hl & Ht)].
        -- exists e. rewrite Nat.sub_diag. auto.
        -- exists e'. split; [lia|]. split; [|done].
           replace (j - i) with (S (j - S i)) by lia. done.
      * intros (e' & Hle & Hl & Ht).
        destruct (decide (j = i)) as [->|Hne]; [by left|right].
        exists e'. split; [lia|]. split; [|done].
        replace (j - i) with (S (j - S i)) in Hl by lia. done.
    + rewrite IH. split.
      * intros (e' & Hle & Hl & Ht). exists e'. split; [lia|]. split; [|done].
        replace (j - i) with (S (j - S i)) by lia. done.
      * intros (e' & Hle & Hl & Ht).
        destruct (decide (j = i)) as [->|Hne].
        -- rewrite Nat.sub_diag in Hl. simpl in Hl. congruence.
        -- exists e'. split; [lia|]. split; [|done].
           replace (j - i) with (S (j - S i)) in Hl by lia. done.
Qed.

(** ** C5: the skip flag *)

(** C5.  With the skip flag set, [copy_images] returns its HTML argument as it
    is, and the world it leaves is the world it was started in: no node
    changes and no call to the filesystem is logged. *)
Theorem copy_images_no_images (html_content input_file output_dir : string)
    (w : world) :
  copy_images html_content input_file output_dir true w = (Return html_content, w).
Proof. reflexivity. Qed.

(** ** C10: image elements without a source *)

(** C10.  When the loop reaches an image element whose [src] attribute is
    absent or empty, the round returns the soup as it is and leaves the world
    as it is (no call to the filesystem is made), so the loop goes on as if
    the element were not listed. *)
Theorem copy_images_no_src (input_dir output_dir : string) (img : nat)
    (rest : list nat) (sp : soup) (w : world) :
  tag_get sp img "src" = None \/ tag_get sp img "src" = Some EmptyString ->
  copy_images_body input_dir output_dir img sp w = (Return sp, w)
  /\ copy_images_loop input_dir output_dir (img :: rest) sp w
     = copy_images_loop input_dir output_dir rest sp w.
Proof.
  intros H.
  assert (Hbody : copy_images_body input_dir output_dir img sp w = (Return sp, w)).
  { unfold copy_images_body. by destruct H as [-> | ->]. }
  split; [exact Hbody|].
  simpl. unfold bind. by rewrite Hbody.
Qed.

(** ** C4: references to missing images *)

(** C4.  When the loop reaches an image element whose source, resolved against
    the directory of the input, does not exist, the round returns the soup as
    it is and raises nothing; the only trace it leaves is the existence check,
    and no node of the filesystem changes.  The loop goes on with the
    following elements, and whenever it returns, the element still carries the
    source it had. *)
Theorem copy_images_missing_image (input_dir output_dir : string) (img : nat)
    (rest : list nat) (sp : soup) (src0 : string) (w : world) :
  tag_get sp img "src" = Some src0 ->
  truthy src0 = true ->
  FS.exists_ w (posixpath.join input_dir (normalized_src input_dir src0)) = false ->
  let img_path := posixpath.join input_dir (normalized_src input_dir src0) in
  let w1 := log (CallExists img_path) w in
  copy_images_body input_dir output_dir img sp w = (Return sp, w1)
  /\ nodes w1 = nodes w
  /\ copy_images_loop input_dir output_dir (img :: rest) sp w
     = copy_images_loop input_dir output_dir rest sp w1
  /\ (forall sp' w',
        img ∉ rest ->
        copy_images_loop input_dir output_dir (img :: rest) sp w = (Return sp', w') ->
        tag_get sp' img "src" = Some src0 /\ sp' !! img = sp !! img).
Proof.
  intros Hget Htruthy Hmissing img_path w1.
  assert (Hbody : copy_images_body input_dir output_dir img sp w = (Return sp, w1)).
  { unfold copy_images_body. rewrite Hget, Htruthy.
    unfold bind, os_path_exists. subst img_path w1. simpl. by rewrite Hmissing. }
  assert (Hloop : copy_images_loop input_dir output_dir (img :: rest) sp w
                  = copy_images_loop input_dir output_dir rest sp w1).
  { simpl. unfold bind. by rewrite Hbody. }
  split; [exact Hbody|]. split; [reflexivity|]. split; [exact Hloop|].
  intros sp' w' Hnotin Hret. rewrite Hloop in Hret. split.
  - rewrite (copy_images_loop_tag_get _ _ _ _ _ _ _ _ _ Hret Hnotin). exact Hget.
  - eapply copy_images_loop_other; eauto.
Qed.

(** ** Inversion of the monad *)

Lemma bind_Return_inv {A B : Type} (m : M A) (k : A -> M B) (w w' : world) (b : B) :
  bind m k w = (Return b, w') ->
  exists a w1, m w = (Return a, w1) /\ k a w1 = (Return b, w').
Proof.
  unfold bind. destruct (m w) as [[a|e|c] w1]; try discriminate.
  intros H. by exists a, w1.
Qed.

Lemma bind_cases {A B : Type} (m : M A) (k : A -> M B) (w : world) :
  (exists a w1, m w = (Return a, w1) /\ bind m k w = k a w1)
  \/ (exists e w1, m w = (Raise e, w1) /\ bind m k w = (Raise e, w1))
  \/ (exists c w1, m w = (Exit c, w1) /\ bind m k w = (Exit c, w1)).
Proof.
  unfold bind. destruct (m w) as [[a|e|c] w1].
  - left. by exists a, w1.
  - right; left. by exists e, w1.
  - right; right. by exists c, w1.
Qed.

(** ** C7: no renderer on the host *)

(** C7.  When wkhtmltopdf is not installed, every invocation ends in the
    startup check: the probe is the only call made (once), it changes no
    node, the four lines naming the problem and the installation command for
    each platform are printed, and the process exits with status 1. *)
Theorem main_without_renderer (args : Namespace) (w : world) :
  wkhtmltopdf_installed = false ->
  exists w',
    main args w = (Exit 1, w')
    /\ stdout w' = stdout w ++ install_instructions
    /\ trace w' = trace w ++ [CallRender "test.pdf"]
    /\ nodes w' = nodes w.
Proof.
  intros Hno. eexists.
  unfold main, bind, try_except_OSError, pdfkit_from_string, pdfkit_to_pdf.
  rewrite Hno. simpl. split; [reflexivity|]. simpl.
  split; [|split; reflexivity].
  rewrite <- !app_assoc. reflexivity.
Qed.

(** ** The temporary file, when [main] returns *)

Lemma walk_delete_file (m : gmap path node) (k : path) (c : string) (t : nat)
    (comps : list string) :
  FS.lookup_node m k = Some (File c t) ->
  forall cur k', FS.walk m cur comps = inr k' ->
                 FS.walk (delete k m) cur comps = inr k'.
Proof.
  intros Hk. induction comps as [|x rest IH]; intros cur k' H; simpl in *; [done|].
  destruct (FS.lookup_node m cur) as [[c' t'|]|] eqn:Hcur; try discriminate.
  assert (Hne : cur <> k) by (intros ->; congruence).
  assert (Hcur' : FS.lookup_node (delete k m) cur = Some Dir).
  { destruct cur as [|y cur']; [reflexivity|].
    simpl in *. by rewrite lookup_delete_ne. }
  rewrite Hcur'. by apply IH.
Qed.

(** Once [os.remove] has returned, the path names nothing. *)
Lemma os_remove_gone (p : string) (w w' : world) :
  os_remove p w = (Return tt, w') -> FS.exists_ w' p = false.
Proof.
  unfold os_remove. intros H.
  destruct (FS.locate w p) as [e|k] eqn:Hloc; [discriminate|].
  destruct (FS.lookup_node (nodes w) k) as [[c t|]|] eqn:Hk; try discriminate.
  inversion H; subst; clear H.
  unfold FS.exists_, FS.stat, FS.locate, FS.start in *. simpl.
  destruct (Str.is_empty p); [reflexivity|].
  rewrite (walk_delete_file _ _ _ _ _ Hk _ _ Hloc).
  destruct k as [|y k']; [discriminate|].
  simpl. by rewrite lookup_delete_eq.
Qed.

Lemma render_through_temp_removes (html_content output page_size margin : string)
    (w w' : world) :
  render_through_temp html_content output page_size margin w = (Return tt, w') ->
  FS.exists_ w' "temp.html" = false.
Proof.
  unfold render_through_temp. intros H.
  apply bind_Return_inv in H as (_ & w1 & _ & H).
  apply bind_Return_inv in H as (_ & w2 & _ & H).
  by apply os_remove_gone in H.
Qed.

(** A PDF-producing run that completes has removed the temporary file:
    [temp.html] does not exist in the world it leaves. *)
Lemma temp_html_removed_on_completion (args : Namespace) (w w' : world) :
  args_command args = Some md_to_pdf \/ args_command args = Some html_to_pdf ->
  main args w = (Return tt, w') ->
  FS.exists_ w' "temp.html" = false.
Proof.
  intros Hcmd H. unfold main in H.
  apply bind_Return_inv in H as (_ & w1 & _ & H).
  destruct Hcmd as [Hcmd|Hcmd]; rewrite Hcmd in H.
  - apply bind_Return_inv in H as (html1 & w2 & _ & H).
    apply bind_Return_inv in H as (html2 & w3 & _ & H).
    eapply render_through_temp_removes. exact H.
  - apply bind_Return_inv in H as (html1 & w2 & _ & H).
    apply bind_Return_inv in H as (html2 & w3 & _ & H).
    eapply render_through_temp_removes. exact H.
Qed.

(** ** The output directory: [os.makedirs] *)

Lemma split_nonempty (s : string) : Str.split s <> [].
Proof.
  destruct s as [|c s']; simpl; [discriminate|].
  destruct (Ascii.eqb c Str.slash); [discriminate|].
  destruct (Str.split s'); discriminate.
Qed.

Lemma lookup_node_insert_ne (m : gmap path node) (k k' : path) (n : node) :
  k <> k' ->
  FS.lookup_node (<[k := n]> m) k' = FS.lookup_node m k'.
Proof.
  intros Hne. destruct k' as [|x k'']; [reflexivity|].
  simpl. by rewrite lookup_insert_ne.
Qed.

Lemma lookup_node_snoc (m : gmap path node) (cur : path) (c : string) :
  FS.lookup_node m (cur ++ [c]) = m !! (cur ++ [c]).
Proof. by destruct cur. Qed.

(** [os.makedirs] only adds: what exists stays as it is. *)
Lemma mkdirs_mono (comps : list string) :
  forall (m : gmap path node) (cur k : path) (n : node),
    FS.lookup_node m k = Some n ->
    FS.lookup_node (FS.mkdirs m cur comps).1 k = Some n.
Proof.
  induction comps as [|c rest IH]; intros m cur k n Hk; simpl; [done|].
  destruct (FS.lookup_node m cur) as [[c' t'|]|]; try done.
  destruct (FS.special c); [by apply IH|].
  destruct (FS.lookup_node m (cur ++ [c])) as [[c' t'|]|] eqn:Hc; try done.
  - by apply IH.
  - apply IH. rewrite lookup_node_insert_ne; [done|].
    intros <-. congruence.
Qed.

Lemma wf_insert_dir (m : gmap path node) (cur : path) (c : string) :
  FS.wf m ->
  FS.lookup_node m cur = Some Dir ->
  FS.wf (<[cur ++ [c] := Dir]> m).
Proof.
  intros Hwf Hcur k n Hk.
  destruct (decide (removelast k = cur ++ [c])) as [->|Hne].
  { rewrite lookup_node_snoc. by rewrite lookup_insert_eq. }
  rewrite lookup_node_insert_ne by done.
  destruct (decide (k = cur ++ [c])) as [->|Hk'].
  - by rewrite removelast_last.
  - rewrite lookup_insert_ne in Hk by done. by apply (Hwf k n).
Qed.

Lemma mkdirs_wf (comps : list string) :
  forall (m : gmap path node) (cur : path),
    FS.wf m -> FS.wf (FS.mkdirs m cur comps).1.
Proof.
  induction comps as [|c rest IH]; intros m cur Hwf; simpl; [done|].
  destruct (FS.lookup_node m cur) as [[c' t'|]|] eqn:Hcur; try done.
  destruct (FS.special c); [by apply IH|].
  destruct (FS.lookup_node m (cur ++ [c])) as [[c' t'|]|] eqn:Hc; try done.
  - by apply IH.
  - apply IH. by apply wf_insert_dir.
Qed.

Lemma wf_parent (m : gmap path node) (cur : path) :
  FS.wf m ->
  FS.lookup_node m cur = Some Dir ->
  FS.lookup_node m (removelast cur) = Some Dir.
Proof.
  intros Hwf Hcur. destruct cur as [|x cur']; [done|].
  by apply (Hwf (x :: cur') Dir).
Qed.

Lemma enter_not_special (cur : path) (c : string) :
  FS.special c = false -> FS.enter cur c = cur ++ [c].
Proof.
  unfold FS.special, FS.enter. intros H.
  apply orb_false_iff in H as [H H3]. apply orb_false_iff in H as [H1 H2].
  by rewrite H1, H2, H3.
Qed.

Lemma enter_special_dir (m : gmap path node) (cur : path) (c : string) :
  FS.wf m -> FS.special c = true ->
  FS.lookup_node m cur = Some Dir ->
  FS.lookup_node m (FS.enter cur c) = Some Dir.
Proof.
  unfold FS.enter, FS.special. intros Hwf Hc Hcur.
  destruct (String.eqb c EmptyString || String.eqb c "."); [done|].
  simpl in Hc. rewrite Hc. by apply wf_parent.
Qed.

(** After [os.makedirs] has returned, the path names a directory. *)
Lemma mkdirs_walk (comps : list string) :
  forall (m m' : gmap path node) (cur : path),
    FS.wf m ->
    FS.lookup_node m cur = Some Dir ->
    FS.mkdirs m cur comps = (m', None) ->
    exists k, FS.walk m' cur comps = inr k /\ FS.lookup_node m' k = Some Dir.
Proof.
  induction comps as [|c rest IH]; intros m m' cur Hwf Hcur H; simpl in *.
  - inversion H; subst. by exists cur.
  - assert (Hcur' : FS.lookup_node m' cur = Some Dir).
    { replace m' with (FS.mkdirs m cur (c :: rest)).1 by (simpl; by rewrite H).
      by apply mkdirs_mono. }
    rewrite Hcur in H. rewrite Hcur'.
    destruct (FS.special c) eqn:Hsp.
    + apply (IH m m' _ Hwf); [by apply enter_special_dir | done].
    + rewrite (enter_not_special _ _ Hsp).
      destruct (FS.lookup_node m (cur ++ [c])) as [[c' t'|]|] eqn:Hc; try done.
      * by apply (IH m m' _ Hwf).
      * apply (IH (<[cur ++ [c] := Dir]> m) m'); [by apply wf_insert_dir | | done].
        rewrite lookup_node_snoc. by rewrite lookup_insert_eq.
Qed.

Lemma os_makedirs_isdir (p : string) (w w1 : world) :
  FS.wf (nodes w) ->
  os_makedirs p w = (Return tt, w1) ->
  FS.isdir w1 p = true /\ FS.wf (nodes w1) /\ cwd w1 = cwd w
  /\ trace w1 = trace w ++ [CallMakedirs p].
Proof.
  unfold os_makedirs. intros Hwf H.
  destruct (Str.is_empty p) eqn:Hp; [discriminate|].
  destruct (FS.mkdirs (nodes w) (FS.start w p) (Str.split p)) as [m' [e|]] eqn:Hmk;
    [discriminate|].
  inversion H; subst; clear H. simpl.
  split; [|split; [|done]].
  - unfold FS.isdir, FS.stat, FS.locate. rewrite Hp. simpl.
    change (FS.start _ p) with (FS.start w p).
    assert (Hstart : FS.lookup_node (nodes w) (FS.start w p) = Some Dir).
    { destruct (Str.split p) as [|c rest] eqn:Hsplit; [by apply split_nonempty in Hsplit|].
      simpl in Hmk.
      destruct (FS.lookup_node (nodes w) (FS.start w p)) as [[c' t'|]|]; by inversion Hmk. }
    destruct (mkdirs_walk _ _ _ _ Hwf Hstart Hmk) as (k & -> & ->). reflexivity.
  - replace m' with (FS.mkdirs (nodes w) (FS.start w p) (Str.split p)).1
      by (by rewrite Hmk).
    by apply mkdirs_wf.
Qed.

Lemma exists_nodes_cwd (w w' : world) (p : string) :
  nodes w' = nodes w -> cwd w' = cwd w -> FS.exists_ w' p = FS.exists_ w p.
Proof.
  intros Hn Hc. unfold FS.exists_, FS.stat, FS.locate, FS.start.
  by rewrite Hn, Hc.
Qed.

Lemma isdir_exists (w : world) (p : string) :
  FS.isdir w p = true -> FS.exists_ w p = true.
Proof.
  unfold FS.isdir, FS.exists_. by destruct (FS.stat w p) as [e|[c t|]].
Qed.

(** With the skip flag unset and a document without image elements,
    [copy_images] is the call of [os.makedirs] on the output directory
    followed by the serialization of the parsed document. *)
Lemma copy_images_without_images (html_content input_file output_dir : string)
    (w : world) :
  find_all (BeautifulSoup html_content) "img" = [] ->
  FS.wf (nodes w) ->
  copy_images html_content input_file output_dir false w
  = (os_makedirs output_dir ;;; ret (soup_str (BeautifulSoup html_content))) w
  /\ trace (copy_images html_content input_file output_dir false w).2
     = trace w ++ [CallMakedirs output_dir]
  /\ forall w1,
       os_makedirs output_dir w = (Return tt, w1) ->
       copy_images html_content input_file output_dir false w
       = (Return (soup_str (BeautifulSoup html_content)), w1)
       /\ FS.isdir w1 output_dir = true
       /\ (FS.exists_ w output_dir = false -> nodes w1 <> nodes w).
Proof.
  intros Himg Hwf.
  assert (Heq : copy_images html_content input_file output_dir false w
                = (os_makedirs output_dir ;;; ret (soup_str (BeautifulSoup html_content))) w).
  { unfold copy_images. rewrite Himg. unfold bind.
    destruct (os_makedirs output_dir w) as [[[]|e|c] w1]; reflexivity. }
  split; [exact Heq|]. split.
  - rewrite Heq. unfold bind, os_makedirs.
    destruct (Str.is_empty output_dir); [reflexivity|].
    destruct (FS.mkdirs _ _ _) as [m' [e|]]; reflexivity.
  - intros w1 Hmk. rewrite Heq. unfold bind. rewrite Hmk.
    split; [reflexivity|].
    destruct (os_makedirs_isdir _ _ _ Hwf Hmk) as (Hdir & _ & Hcwd & _).
    split; [exact Hdir|].
    intros Hno Hnodes. apply isdir_exists in Hdir.
    rewrite (exists_nodes_cwd w w1 output_dir Hnodes Hcwd) in Hdir. congruence.
Qed.

(** ** C8: the file the startup check leaves *)

Lemma preserves_ret (dir : path) (name : string) {A : Type} (a : A) :
  preserves dir name (ret a).
Proof. intros w r w' Hw H. by inversion H; subst. Qed.

Lemma preserves_bind (dir : path) (name : string) {A B : Type} (m : M A)
    (k : A -> M B) :
  preserves dir name m -> (forall a, preserves dir name (k a)) ->
  preserves dir name (bind m k).
Proof.
  intros Hm Hk w r w' Hw H. unfold bind in H.
  destruct (m w) as [[a|e|c] w1] eqn:Hmw.
  - eapply Hk; [|exact H]. eapply Hm; eauto.
  - inversion H; subst. eapply Hm; eauto.
  - inversion H; subst. eapply Hm; eauto.
Qed.

Lemma preserves_run (dir : path) (name : string) {A : Type} (m : M A)
    (w w' : world) (r : outcome A) :
  preserves dir name m -> holds_file dir name w -> m w = (r, w') ->
  holds_file dir name w'.
Proof. intros Hm Hw H. by apply (Hm w r w'). Qed.

(** Changes of the log, the clock and the output do not matter. *)
Lemma holds_file_same (dir : path) (name : string) (w w0 : world) :
  nodes w0 = nodes w -> cwd w0 = cwd w ->
  holds_file dir name w -> holds_file dir name w0.
Proof. unfold holds_file. intros -> ->. done. Qed.

(** Writing a regular file where no directory is keeps the file. *)
Lemma holds_file_insert (dir : path) (name : string) (w w0 : world) (k : path)
    (c : string) (t : nat) :
  FS.lookup_node (nodes w) k <> Some Dir ->
  nodes w0 = <[k := File c t]> (nodes w) -> cwd w0 = cwd w ->
  holds_file dir name w -> holds_file dir name w0.
Proof.
  unfold holds_file. intros Hk -> -> (Hcwd & Hdir & c0 & t0 & Hfile).
  split; [done|]. split.
  - rewrite lookup_node_insert_ne; [done|]. intros ->. congruence.
  - destruct (decide (k = dir ++ [name])) as [->|Hne].
    + exists c, t. by rewrite lookup_insert_eq.
    + exists c0, t0. by rewrite lookup_insert_ne.
Qed.

(** A path that can be opened for writing resolves, and not to a directory. *)
Lemma locate_for_write_inr (w : world) (p : string) (k : path) :
  FS.locate_for_write w p = inr k ->
  FS.locate w p = inr k /\ FS.lookup_node (nodes w) k <> Some Dir.
Proof.
  unfold FS.locate_for_write.
  destruct (Str.endswith_slash p).
  { destruct (FS.walk _ _ _); discriminate. }
  destruct (FS.locate w p) as [e|k0]; [discriminate|].
  destruct (FS.lookup_node (nodes w) k0) as [[c t|]|] eqn:Hk0; try discriminate.
  - intros H; inversion H; subst. split; [done|congruence].
  - destruct (last (Str.split p)) as [x|]; [|discriminate].
    destruct (FS.special x); [discriminate|].
    intros H; inversion H; subst. split; [done|congruence].
Qed.

Lemma locate_for_write_not_dir (w : world) (p : string) (k : path) :
  FS.locate_for_write w p = inr k -> FS.lookup_node (nodes w) k <> Some Dir.
Proof. intros H. by apply locate_for_write_inr in H as [_ H]. Qed.

Lemma preserves_os_path_exists (dir : path) (name p : string) :
  preserves dir name (os_path_exists p).
Proof.
  intros w r w' Hw H. unfold os_path_exists in H. inversion H; subst.
  by apply (holds_file_same dir name w).
Qed.

Lemma preserves_open_read (dir : path) (name p : string) :
  preserves dir name (open_read p).
Proof.
  intros w r w' Hw H. unfold open_read in H.
  destruct (FS.stat w p) as [e|[c t|]]; [| destruct (Text.utf8_valid c) |];
    inversion H; subst; by apply (holds_file_same dir name w).
Qed.

Lemma preserves_os_makedirs (dir : path) (name p : string) :
  preserves dir name (os_makedirs p).
Proof.
  intros w r w' Hw H. unfold os_makedirs in H.
  destruct (Str.is_empty p).
  { inversion H; subst. by apply (holds_file_same dir name w). }
  assert (Hm : holds_file dir name
                 (set_nodes (FS.mkdirs (nodes w) (FS.start w p) (Str.split p)).1
                    (log (CallMakedirs p) w))).
  { destruct Hw as (Hcwd & Hdir & c & t & Hfile).
    split; [done|]. split; simpl.
    - by apply mkdirs_mono.
    - exists c, t. rewrite <- lookup_node_snoc. apply mkdirs_mono.
      by rewrite lookup_node_snoc. }
  destruct (FS.mkdirs _ _ _) as [m' [e|]]; inversion H; subst; exact Hm.
Qed.

Lemma preserves_open_write (dir : path) (name p content : string) :
  preserves dir name (open_write p content).
Proof.
  intros w r w' Hw H. unfold open_write in H.
  destruct (FS.locate_for_write w p) as [e|k] eqn:Hk; inversion H; subst.
  - by apply (holds_file_same dir name w).
  - apply locate_for_write_not_dir in Hk.
    by eapply (holds_file_insert dir name w _ k).
Qed.

Lemma preserves_shutil_copyfile (dir : path) (name src dst : string) :
  preserves dir name (shutil_copyfile src dst).
Proof.
  intros w r w' Hw H. unfold shutil_copyfile in H.
  destruct (FS.samefile w src dst); [by inversion H; subst|].
  destruct (FS.stat w src) as [e|[c t|]]; try (by inversion H; subst).
  destruct (FS.locate_for_write w dst) as [e|k] eqn:Hk; inversion H; subst; [done|].
  apply locate_for_write_not_dir in Hk.
  by eapply (holds_file_insert dir name w _ k).
Qed.

Lemma preserves_shutil_copystat (dir : path) (name src dst : string) :
  preserves dir name (shutil_copystat src dst).
Proof.
  intros w r w' Hw H. unfold shutil_copystat in H.
  destruct (FS.stat w src) as [e|[c t|]];
    destruct (FS.locate w dst) as [e'|k]; try (by inversion H; subst).
  destruct (FS.lookup_node (nodes w) k) as [[c' t'|]|] eqn:Hk;
    inversion H; subst; try done.
  eapply (holds_file_insert dir name w _ k); try done. congruence.
Qed.

Lemma preserves_shutil_copy2 (dir : path) (name src dst : string) :
  preserves dir name (shutil_copy2 src dst).
Proof.
  intros w r w' Hw H. unfold shutil_copy2 in H.
  eapply preserves_run; [| |exact H].
  - apply preserves_bind; [apply preserves_shutil_copyfile|].
    intros _. apply preserves_shutil_copystat.
  - by apply (holds_file_same dir name w).
Qed.

Lemma preserves_os_remove_temp (dir : path) :
  preserves dir "test.pdf" (os_remove "temp.html").
Proof.
  intros w r w' Hw H. unfold os_remove in H.
  destruct (FS.locate w "temp.html") as [e|k] eqn:Hloc.
  { inversion H; subst. by apply (holds_file_same dir "test.pdf" w). }
  destruct (FS.lookup_node (nodes w) k) as [[c t|]|] eqn:Hk; inversion H; subst;
    try by apply (holds_file_same dir "test.pdf" w).
  destruct Hw as (Hcwd & Hdir & c0 & t0 & Hfile).
  unfold FS.locate, FS.start in Hloc. simpl in Hloc.
  rewrite Hcwd, Hdir in Hloc.
  change (FS.enter dir "temp.html") with (dir ++ ["temp.html"]) in Hloc.
  inversion Hloc; subst k. clear Hloc H.
  split; [done|]. split; simpl.
  - destruct dir as [|x rest]; [done|]. simpl in *.
    rewrite lookup_delete_ne; [done|].
    intros Heq. apply (f_equal length) in Heq. simpl in Heq.
    rewrite length_app in Heq. simpl in Heq. lia.
  - exists c0, t0. rewrite lookup_delete_ne; [done|].
    intros Heq. apply app_inv_head in Heq. discriminate.
Qed.

Lemma preserves_pdfkit_to_pdf (dir : path) (name input output_path : string)
    (options : list (string * option string)) :
  preserves dir name (pdfkit_to_pdf input options output_path).
Proof.
  intros w r w' Hw H. unfold pdfkit_to_pdf in H.
  destruct (negb wkhtmltopdf_installed); [by inversion H; subst|].
  destruct (wkhtmltopdf _ _ _ _) as [pdf|].
  - destruct (FS.locate_for_write w output_path) as [e|k] eqn:Hk; inversion H; subst;
      [done|].
    apply locate_for_write_not_dir in Hk.
    by eapply (holds_file_insert dir name w _ k).
  - destruct (wkhtmltopdf_leaves _ _ _ _) as [partial|]; [|by inversion H; subst].
    destruct (FS.locate_for_write w output_path) as [e|k] eqn:Hk; inversion H; subst;
      [done|].
    apply locate_for_write_not_dir in Hk.
    by eapply (holds_file_insert dir name w _ k).
Qed.

Lemma preserves_pdfkit_from_file (dir : path) (name input output_path : string)
    (options : list (string * option string)) :
  preserves dir name (pdfkit_from_file input output_path options).
Proof.
  intros w r w' Hw H. unfold pdfkit_from_file in H.
  assert (Hlog : holds_file dir name (log (CallRender output_path) w))
    by (by apply (holds_file_same dir name w)).
  destruct (FS.stat _ input) as [e|[c t|]]; try (by inversion H; subst).
  eapply preserves_pdfkit_to_pdf; eauto.
Qed.

Lemma preserves_copy_images_body (dir : path) (name input_dir output_dir : string)
    (img : nat) (sp : soup) :
  preserves dir name (copy_images_body input_dir output_dir img sp).
Proof.
  unfold copy_images_body.
  destruct (tag_get sp img "src") as [src0|]; [|apply preserves_ret].
  destruct (truthy src0); [|apply preserves_ret].
  apply preserves_bind; [apply preserves_os_path_exists|].
  intros [|]; [|apply preserves_ret].
  apply preserves_bind.
  { destruct (truthy _); [apply preserves_os_makedirs | apply preserves_ret]. }
  intros _. apply preserves_bind; [apply preserves_shutil_copy2|].
  intros _. apply preserves_ret.
Qed.

Lemma preserves_copy_images_loop (dir : path) (name input_dir output_dir : string)
    (img_tags : list nat) :
  forall sp, preserves dir name (copy_images_loop input_dir output_dir img_tags sp).
Proof.
  induction img_tags as [|img rest IH]; intros sp; simpl.
  - apply preserves_ret.
  - apply preserves_bind; [apply preserves_copy_images_body | exact IH].
Qed.

Lemma preserves_copy_images (dir : path) (name html_content input_file output_dir : string)
    (no_images : bool) :
  preserves dir name (copy_images html_content input_file output_dir no_images).
Proof.
  unfold copy_images. destruct no_images; [apply preserves_ret|].
  intros w r w' Hw H. eapply preserves_run; [|exact Hw|exact H].
  apply preserves_bind; [apply preserves_os_makedirs|].
  intros _. apply preserves_bind; [apply preserves_copy_images_loop|].
  intros sp'. apply preserves_ret.
Qed.

Lemma preserves_convert_markdown_to_html (dir : path)
    (name input_file bg text heading link code border : string) :
  preserves dir name
    (convert_markdown_to_html input_file bg text heading link code border).
Proof.
  unfold convert_markdown_to_html.
  apply preserves_bind; [apply preserves_open_read|].
  intros md. apply preserves_ret.
Qed.

Lemma preserves_render_through_temp (dir : path)
    (html_content output page_size margin : string) :
  preserves dir "test.pdf" (render_through_temp html_content output page_size margin).
Proof.
  unfold render_through_temp.
  apply preserves_bind; [apply preserves_open_write|].
  intros _. apply preserves_bind; [apply preserves_pdfkit_from_file|].
  intros _. apply preserves_os_remove_temp.
Qed.

(** What [main] does once the startup check has passed. *)
Lemma main_after_check_preserves (dir : path) (args : Namespace) (w1 w' : world)
    (r : outcome unit) :
  holds_file dir "test.pdf" w1 ->
  (let k := fun _ : unit =>
     match args_command args with
     | None => raise AttributeError
     | Some cmd =>
         let output :=
           match args_output args with
           | Some o => if truthy o then o else default_output cmd
           | None => default_output cmd
           end in
         fun w =>
           let output_dir := posixpath.dirname (posixpath.abspath (FS.getcwd w) output) in
           let output_dir := if truthy output_dir then output_dir else "." in
           match cmd with
           | md_to_pdf =>
               (html_content <-
                  convert_markdown_to_html (args_input args) (args_bg_color args)
                    (args_text_color args) (args_heading_color args)
                    (args_link_color args) (args_code_bg args)
                    (args_border_color args) ;;
                html_content <-
                  copy_images html_content (args_input args) output_dir
                    (args_no_images args) ;;
                render_through_temp html_content output (args_page_size args)
                  (args_margin args)) w
           | md_to_html =>
               (html_content <-
                  convert_markdown_to_html (args_input args) (args_bg_color args)
                    (args_text_color args) (args_heading_color args)
                    (args_link_color args) (args_code_bg args)
                    (args_border_color args) ;;
                html_content <-
                  copy_images html_content (args_input args) output_dir
                    (args_no_images args) ;;
                open_write output html_content) w
           | html_to_pdf =>
               (html_content <- open_read (args_input args) ;;
                html_content <-
                  copy_images html_content (args_input args) output_dir
                    (args_no_images args) ;;
                render_through_temp html_content output (args_page_size args)
                  (args_margin args)) w
           end
     end in
   k tt w1 = (r, w')) ->
  holds_file dir "test.pdf" w'.
Proof.
  intros Hw H. cbv zeta in H.
  destruct (args_command args) as [[| |]|].
  - eapply preserves_run; [|exact Hw|exact H].
    apply preserves_bind; [apply preserves_convert_markdown_to_html|].
    intros h1. apply preserves_bind; [apply preserves_copy_images|].
    intros h2. apply preserves_render_through_temp.
  - eapply preserves_run; [|exact Hw|exact H].
    apply preserves_bind; [apply preserves_convert_markdown_to_html|].
    intros h1. apply preserves_bind; [apply preserves_copy_images|].
    intros h2. apply preserves_open_write.
  - eapply preserves_run; [|exact Hw|exact H].
    apply preserves_bind; [apply preserves_open_read|].
    intros h1. apply preserves_bind; [apply preserves_copy_images|].
    intros h2. apply preserves_render_through_temp.
  - inversion H; subst. exact Hw.
Qed.

Lemma bind_Return_eq {A B : Type} (m : M A) (k : A -> M B) (w w1 : world) (a : A) :
  m w = (Return a, w1) -> bind m k w = k a w1.
Proof. unfold bind. by intros ->. Qed.

Lemma holds_file_isfile (dir : path) (w : world) :
  holds_file dir "test.pdf" w -> FS.isfile w "test.pdf" = true.
Proof.
  intros (Hcwd & Hdir & c & t & Hfile).
  unfold FS.isfile, FS.stat, FS.locate, FS.start. simpl.
  rewrite Hcwd, Hdir.
  change (FS.enter dir "test.pdf") with (dir ++ ["test.pdf"]).
  rewrite lookup_node_snoc, Hfile. reflexivity.
Qed.

(** The startup check, when the renderer works: the PDF of the empty
    document is written to [test.pdf] in the working directory. *)
Lemma check_wkhtmltopdf_writes (w : world) (k : path) (pdf : string) :
  wkhtmltopdf_installed = true ->
  wkhtmltopdf (nodes w) (cwd w) EmptyString [] = Some pdf ->
  FS.locate_for_write w "test.pdf" = inr k ->
  k = cwd w ++ ["test.pdf"]
  /\ FS.lookup_node (nodes w) (cwd w) = Some Dir
  /\ check_wkhtmltopdf w
     = (Return tt,
        tick (set_nodes (<[k := File pdf (clock w)]> (nodes w))
                (log (CallRender "test.pdf") w))).
Proof.
  intros Hinst Hpdf Hk.
  assert (Hloc : k = cwd w ++ ["test.pdf"]
                 /\ FS.lookup_node (nodes w) (cwd w) = Some Dir).
  { apply locate_for_write_inr in Hk as [Hk _].
    unfold FS.locate, FS.start in Hk. simpl in Hk.
    destruct (FS.lookup_node (nodes w) (cwd w)) as [[c t|]|]; try discriminate.
    change (FS.enter (cwd w) "test.pdf") with (cwd w ++ ["test.pdf"]) in Hk.
    inversion Hk; by subst. }
  destruct Hloc as [Hkeq Hdir]. split; [exact Hkeq|]. split; [exact Hdir|].
  unfold check_wkhtmltopdf, try_except_OSError, pdfkit_from_string, pdfkit_to_pdf.
  rewrite Hinst. simpl. rewrite Hpdf.
  change (FS.locate_for_write (log (CallRender "test.pdf") w) "test.pdf")
    with (FS.locate_for_write w "test.pdf").
  by rewrite Hk.
Qed.

(** C8.  When the renderer works (it is installed, it renders the empty
    document, and [test.pdf] can be opened for writing in the working
    directory), the startup check writes the PDF of the empty document to
    [test.pdf] in the working directory, for every command line; and in the
    world [main] leaves, however it ends, [test.pdf] is still a regular file
    there. *)
Theorem main_leaves_test_pdf (args : Namespace) (w : world) (k : path)
    (pdf : string) :
  wkhtmltopdf_installed = true ->
  wkhtmltopdf (nodes w) (cwd w) EmptyString [] = Some pdf ->
  FS.locate_for_write w "test.pdf" = inr k ->
  (exists w1,
     check_wkhtmltopdf w = (Return tt, w1)
     /\ nodes w1 = <[cwd w ++ ["test.pdf"] := File pdf (clock w)]> (nodes w))
  /\ holds_file (cwd w) "test.pdf" (main args w).2
  /\ FS.isfile (main args w).2 "test.pdf" = true.
Proof.
  intros Hinst Hpdf Hk.
  destruct (check_wkhtmltopdf_writes w k pdf Hinst Hpdf Hk) as (-> & Hdir & Hcheck).
  split; [eexists; split; [exact Hcheck | reflexivity]|].
  assert (Hw1 : holds_file (cwd w) "test.pdf"
                  (tick (set_nodes (<[cwd w ++ ["test.pdf"] := File pdf (clock w)]> (nodes w))
                           (log (CallRender "test.pdf") w)))).
  { split; [reflexivity|]. split; simpl.
    - rewrite lookup_node_insert_ne; [exact Hdir|].
      intros Heq. apply (f_equal length) in Heq. rewrite length_app in Heq.
      simpl in Heq. lia.
    - exists pdf, (clock w). by rewrite lookup_insert_eq. }
  assert (Hend : holds_file (cwd w) "test.pdf" (main args w).2).
  { destruct (main args w) as [r w'] eqn:Hmain. simpl.
    unfold main in Hmain. unfold check_wkhtmltopdf in Hcheck.
    rewrite (bind_Return_eq _ _ _ _ _ Hcheck) in Hmain.
    eapply main_after_check_preserves; [exact Hw1 | exact Hmain]. }
  split; [exact Hend|]. by apply (holds_file_isfile (cwd w)).
Qed.

End Properties.

(** ** C1: references above the input directory *)

Lemma startswith_inv_parent (s : string) :
  Str.startswith s "../" = true -> exists r, s = String "." (String "." (String "/" r)).
Proof.
  unfold Str.startswith. rewrite String.prefix_correct.
  destruct s as [|a [|b [|c r]]]; simpl; try discriminate.
  intros H. injection H as -> -> ->. by exists r.
Qed.

Lemma isabs_inv (p : string) :
  posixpath.isabs p = true -> exists r, p = String "/" r.
Proof.
  unfold posixpath.isabs, Str.startswith. rewrite String.prefix_correct.
  destruct p as [|a r]; simpl; [discriminate|].
  intros H. exists r. destruct r; by injection H as ->.
Qed.

Lemma isabs_cons (r : string) : posixpath.isabs (String "/" r) = true.
Proof.
  unfold posixpath.isabs, Str.startswith. rewrite String.prefix_correct.
  simpl. by destruct r.
Qed.

Lemma join_abs (a b : string) :
  posixpath.isabs b = true -> posixpath.join a b = b.
Proof. unfold posixpath.join, posixpath.isabs. by intros ->. Qed.

Lemma join_isabs (a b : string) :
  posixpath.isabs a = true -> posixpath.isabs (posixpath.join a b) = true.
Proof.
  intros Ha. unfold posixpath.join.
  destruct (Str.startswith b "/") eqn:Hb; [exact Hb|].
  apply isabs_inv in Ha as [r ->].
  destruct (_ || _); apply isabs_cons.
Qed.

Lemma normpath_isabs (p : string) :
  posixpath.isabs p = true -> posixpath.isabs (posixpath.normpath p) = true.
Proof.
  intros Hp. unfold posixpath.normpath.
  replace (Str.is_empty p) with false
    by (destruct (isabs_inv _ Hp) as [r ->]; reflexivity).
  unfold posixpath.isabs in Hp. rewrite Hp.
  destruct (_ && _).
  - generalize (Str.join (fold_left (posixpath.normpath_step 2) (Str.split p) [])).
    intros j. change ("//" +:+ j) with (String "/" (String "/" j)).
    apply isabs_cons.
  - generalize (Str.join (fold_left (posixpath.normpath_step 1) (Str.split p) [])).
    intros j. change ("/" +:+ j) with (String "/" j).
    apply isabs_cons.
Qed.

(** X2.  Every reference that starts with [../] and names something that exists
    makes the round raise: the normalized source is absolute, so the copy is
    asked to write the source onto itself (or, for a directory, to read a
    directory as a file). *)
Lemma copy_images_body_parent_reference (input_dir output_dir : string)
    (img : nat) (sp : soup) (src0 : string) (w : world) :
  tag_get sp img "src" = Some src0 ->
  Str.startswith src0 "../" = true ->
  posixpath.isabs input_dir = true ->
  FS.exists_ w (posixpath.normpath (posixpath.join input_dir src0)) = true ->
  exists e w', copy_images_body input_dir output_dir img sp w = (Raise e, w').
Proof.
  intros Hget Hparent Habs Hexists.
  destruct (startswith_inv_parent _ Hparent) as [r ->].
  set (src0 := String "." (String "." (String "/" r))) in *.
  set (src := posixpath.normpath (posixpath.join input_dir src0)) in *.
  assert (Hsrc_abs : posixpath.isabs src = true)
    by (apply normpath_isabs, join_isabs, Habs).
  assert (Hnorm : normalized_src input_dir src0 = src).
  { unfold normalized_src. rewrite Hparent.
    replace (Str.startswith src0 "./") with false; [reflexivity|].
    symmetry. apply not_true_is_false. unfold Str.startswith.
    rewrite String.prefix_correct. simpl. discriminate. }
  unfold copy_images_body. rewrite Hget.
  replace (truthy src0) with true by reflexivity.
  rewrite Hnorm. rewrite !(join_abs _ src Hsrc_abs).
  unfold bind at 1. unfold os_path_exists at 1. rewrite Hexists.
  unfold bind at 1.
  match goal with
  | |- context [(if ?c then ?m else ret tt) ?w0] =>
      destruct ((if c then m else ret tt) w0) as [[[]|e|c'] w1] eqn:Hmk
  end.
  - unfold bind at 1. unfold shutil_copy2 at 1. unfold bind at 1.
    unfold shutil_copyfile at 1.
    destruct (FS.isdir (log (CallCopy2 src src) w1) src) eqn:Hdir.
    + destruct (FS.samefile _ src _); [by eexists _, _|].
      unfold FS.isdir in Hdir.
      destruct (FS.stat (log (CallCopy2 src src) w1) src) as [e|[c0 t0|]];
        try discriminate.
      by eexists _, _.
    + destruct (FS.samefile _ src src) eqn:Hsame; [by eexists _, _|].
      destruct (FS.stat (log (CallCopy2 src src) w1) src) as [e|[c0 t0|]] eqn:Hstat;
        try by eexists _, _.
      exfalso. unfold FS.samefile, FS.stat in *.
      destruct (FS.locate _ src) as [e|k]; [discriminate|].
      rewrite bool_decide_eq_true_2 in Hsame by done.
      destruct (FS.lookup_node _ k); discriminate.
  - by eexists _, _.
  - exfalso. destruct (truthy (posixpath.dirname src)).
    + unfold os_makedirs in Hmk.
      destruct (Str.is_empty _); [discriminate|].
      destruct (FS.mkdirs _ _ _) as [m' [e|]]; discriminate.
    + discriminate.
Qed.

(** ** C3: what relocation does when source and destination differ *)

Lemma walk_insert_file (m : gmap path node) (k : path) (c : string) (t : nat)
    (comps : list string) :
  FS.lookup_node m k <> Some Dir ->
  forall cur k', FS.walk m cur comps = inr k' ->
                 FS.walk (<[k := File c t]> m) cur comps = inr k'.
Proof.
  intros Hk. induction comps as [|x rest IH]; intros cur k' H; simpl in *; [done|].
  destruct (FS.lookup_node m cur) as [[c' t'|]|] eqn:Hcur; try discriminate.
  rewrite lookup_node_insert_ne; [|intros ->; congruence].
  rewrite Hcur. by apply IH.
Qed.

Lemma locate_insert_file (w w' : world) (p : string) (k kp : path) (c : string)
    (t : nat) :
  FS.lookup_node (nodes w) k <> Some Dir ->
  nodes w' = <[k := File c t]> (nodes w) -> cwd w' = cwd w ->
  FS.locate w p = inr kp -> FS.locate w' p = inr kp.
Proof.
  intros Hk Hn Hc. unfold FS.locate, FS.start. rewrite Hn, Hc.
  destruct (Str.is_empty p); [done|]. by apply walk_insert_file.
Qed.

Lemma stat_insert_file_eq (w w' : world) (p : string) (k : path) (c : string)
    (t : nat) :
  FS.lookup_node (nodes w) k <> Some Dir ->
  nodes w' = <[k := File c t]> (nodes w) -> cwd w' = cwd w ->
  FS.locate w p = inr k -> FS.stat w' p = inr (File c t).
Proof.
  intros Hk Hn Hc Hloc. unfold FS.stat.
  rewrite (locate_insert_file w w' p k k c t Hk Hn Hc Hloc), Hn.
  destruct k as [|x k']; [by destruct Hk|].
  simpl. by rewrite lookup_insert_eq.
Qed.

Lemma stat_insert_file_ne (w w' : world) (p : string) (k kp : path) (c : string)
    (t : nat) :
  FS.lookup_node (nodes w) k <> Some Dir ->
  nodes w' = <[k := File c t]> (nodes w) -> cwd w' = cwd w ->
  FS.locate w p = inr kp -> kp <> k -> FS.stat w' p = FS.stat w p.
Proof.
  intros Hk Hn Hc Hloc Hne. unfold FS.stat.
  rewrite (locate_insert_file w w' p k kp c t Hk Hn Hc Hloc), Hloc, Hn.
  by rewrite lookup_node_insert_ne.
Qed.

Lemma isdir_log (c : call) (w : world) (p : string) :
  FS.isdir (log c w) p = FS.isdir w p.
Proof. reflexivity. Qed.

(** X1.  The round for a reference that is not of the [../] kind, started in a
    world where the source is a regular file.  If the directories for the
    destination can be made and, once they are there, the destination is
    neither the source itself nor a directory and can be opened for writing,
    then the round returns: the destination holds the content of the source
    with the modification time of the source, whatever was there before, no
    other node changes, and the element carries the source without its
    [./]. *)
Lemma copy_images_relocates (input_dir output_dir : string) (img : nat)
    (sp : soup) (src0 content : string) (mtime : nat) (w w1 : world) (k : path) :
  let src := normalized_src input_dir src0 in
  let img_path := posixpath.join input_dir src in
  let dst := posixpath.join output_dir src in
  tag_get sp img "src" = Some src0 ->
  truthy src0 = true ->
  FS.stat w img_path = inr (File content mtime) ->
  (if truthy (posixpath.dirname src)
   then os_makedirs (posixpath.join output_dir (posixpath.dirname src))
   else ret tt) (log (CallExists img_path) w) = (Return tt, w1) ->
  FS.samefile w1 img_path dst = false ->
  FS.locate_for_write w1 dst = inr k ->
  exists w2,
    copy_images_body input_dir output_dir img sp w
    = (Return (tag_set sp img "src" src), w2)
    /\ nodes w2 = <[k := File content mtime]> (nodes w1)
    /\ FS.stat w2 dst = inr (File content mtime)
    /\ FS.stat w2 img_path = inr (File content mtime)
    /\ tag_get (tag_set sp img "src" src) img "src" = Some src.
Proof.
  intros src img_path dst Hget Htruthy Hsrc Hmk Hsame Hk.
  (* the source is still what it was once the directories are made *)
  assert (Hsrc1 : FS.stat w1 img_path = inr (File content mtime)).
  { destruct (truthy (posixpath.dirname src)); [|by inversion Hmk; subst].
    unfold os_makedirs in Hmk.
    destruct (Str.is_empty _); [discriminate|].
    destruct (FS.mkdirs _ _ _) as [m' [e|]] eqn:Hm; [discriminate|].
    inversion Hmk; subst; clear Hmk.
    unfold FS.stat, FS.locate, FS.start in *. simpl in *.
    destruct (Str.is_empty img_path); [discriminate|].
    destruct (FS.walk (nodes w) _ _) as [e|ks] eqn:Hwalk; [discriminate|].
    assert (Hmono : forall k0 n, FS.lookup_node (nodes w) k0 = Some n ->
                                 FS.lookup_node m' k0 = Some n).
    { intros k0 n H0.
      replace m' with (FS.mkdirs (nodes w)
                         (if posixpath.isabs (posixpath.join output_dir (posixpath.dirname src))
                          then [] else cwd w)
                         (Str.split (posixpath.join output_dir (posixpath.dirname src)))).1
        by (by rewrite Hm).
      by apply mkdirs_mono. }
    assert (Hwalk' : forall comps cur k0,
               FS.walk (nodes w) cur comps = inr k0 -> FS.walk m' cur comps = inr k0).
    { induction comps as [|x rest IH]; intros cur k0 H0; simpl in *; [done|].
      destruct (FS.lookup_node (nodes w) cur) as [[c' t'|]|] eqn:Hcur; try discriminate.
      rewrite (Hmono _ _ Hcur). by apply IH. }
    rewrite (Hwalk' _ _ _ Hwalk).
    destruct (FS.lookup_node (nodes w) ks) as [n|] eqn:Hks; [|discriminate].
    by rewrite (Hmono _ _ Hks). }
  assert (Hnotdir : FS.lookup_node (nodes w1) k <> Some Dir)
    by (by apply locate_for_write_not_dir in Hk).
  assert (Hisdir : FS.isdir w1 dst = false).
  { unfold FS.isdir, FS.stat.
    destruct (locate_for_write_inr _ _ _ Hk) as [-> Hnd].
    destruct (FS.lookup_node (nodes w1) k) as [[c t|]|]; done. }
  (* the keys of source and destination *)
  assert (Hdst : FS.locate w1 dst = inr k).
  { by destruct (locate_for_write_inr _ _ _ Hk) as [Hloc _]. }
  assert (Hks : exists ks, FS.locate w1 img_path = inr ks
                           /\ FS.lookup_node (nodes w1) ks = Some (File content mtime)
                           /\ ks <> k).
  { unfold FS.stat in Hsrc1. unfold FS.samefile in Hsame. rewrite Hdst in Hsame.
    destruct (FS.locate w1 img_path) as [e|ks]; [discriminate|].
    destruct (FS.lookup_node (nodes w1) ks) as [n|] eqn:Hn; [|discriminate].
    exists ks. split; [done|]. split; [congruence|].
    intros ->. rewrite bool_decide_eq_true_2 in Hsame by done. discriminate. }
  destruct Hks as (ks & Hlocs & Hnode & Hne).
  set (m2 := <[k := File content (clock w1)]> (nodes w1)).
  set (wc := tick (set_nodes m2 (log (CallCopy2 img_path dst) w1))).
  assert (Hlocs2 : FS.locate wc img_path = inr ks)
    by (by apply (locate_insert_file w1 wc img_path k ks content (clock w1))).
  assert (Hdst2 : FS.locate wc dst = inr k)
    by (by apply (locate_insert_file w1 wc dst k k content (clock w1))).
  set (w2 := set_nodes (<[k := File content mtime]> m2) wc).
  assert (Hnodes2 : nodes w2 = <[k := File content mtime]> (nodes w1))
    by (simpl; unfold m2; by rewrite insert_insert_eq).
  exists w2. split; [|split; [exact Hnodes2|split; [|split]]].
  - unfold copy_images_body. rewrite Hget, Htruthy.
    fold src. fold img_path. fold dst.
    unfold bind at 1. unfold os_path_exists at 1.
    replace (FS.exists_ w img_path) with true
      by (unfold FS.exists_; by rewrite Hsrc).
    unfold bind at 1. rewrite Hmk.
    unfold bind at 1. unfold shutil_copy2 at 1.
    rewrite isdir_log, Hisdir.
    unfold bind at 1. unfold shutil_copyfile at 1.
    change (FS.samefile (log (CallCopy2 img_path dst) w1) img_path dst)
      with (FS.samefile w1 img_path dst).
    rewrite Hsame.
    change (FS.stat (log (CallCopy2 img_path dst) w1) img_path)
      with (FS.stat w1 img_path).
    rewrite Hsrc1.
    change (FS.locate_for_write (log (CallCopy2 img_path dst) w1) dst)
      with (FS.locate_for_write w1 dst).
    rewrite Hk. simpl clock. simpl nodes. fold m2. fold wc.
    unfold shutil_copystat.
    replace (FS.stat wc img_path) with (FS.stat w1 img_path)
      by (symmetry;
          by apply (stat_insert_file_ne w1 wc img_path k ks content (clock w1))).
    rewrite Hsrc1, Hdst2. simpl nodes.
    replace (FS.lookup_node m2 k) with (Some (File content (clock w1))).
    2:{ unfold m2. destruct k as [|x k']; [by destruct Hnotdir|].
        simpl. by rewrite lookup_insert_eq. }
    reflexivity.
  - by apply (stat_insert_file_eq w1 w2 dst k content mtime).
  - rewrite <- Hsrc1.
    by apply (stat_insert_file_ne w1 w2 img_path k ks content mtime).
  - by apply (tag_get_set sp img "src" src src0).
Qed.

(** ** C6: the colours in the template *)

Lemma string_app_assoc (a b c : string) : (a +:+ b) +:+ c = a +:+ (b +:+ c).
Proof.
  induction a as [|x a IH]; [reflexivity|].
  change (String x ((a +:+ b) +:+ c) = String x (a +:+ (b +:+ c))).
  by rewrite IH.
Qed.

Lemma generate_html_template_shape
    (html_content bg_color text_color heading_color link_color code_bg
       border_color : string) :
  generate_html_template html_content bg_color text_color heading_color
    link_color code_bg border_color
  = template_head +:+ "<style>"
    +:+ theme_css bg_color text_color heading_color link_color code_bg border_color
    +:+ "</style>" +:+ template_tail html_content.
Proof.
  unfold generate_html_template, theme_css, template_tail, template_head.
  rewrite !string_app_assoc. reflexivity.
Qed.

Lemma contains_skip (p s sub : string) : contains s sub -> contains (p +:+ s) sub.
Proof.
  intros (pre & post & ->). exists (p +:+ pre), post.
  by rewrite string_app_assoc.
Qed.

Lemma contains_here (a l x r b rest : string) :
  contains ((a +:+ l) +:+ x +:+ (r +:+ b) +:+ rest) (l +:+ x +:+ r).
Proof.
  exists a, (b +:+ rest). by rewrite !string_app_assoc.
Qed.

Ltac find_declaration :=
  match goal with
  | |- contains (?p +:+ ?x +:+ ?n +:+ ?rest) (?l +:+ ?x +:+ ?r) =>
      let k := eval vm_compute in (String.length p - String.length l) in
      let a := eval vm_compute in (String.substring 0 k p) in
      let b := eval vm_compute in (Str.drop (String.length r) n) in
      change (contains ((a +:+ l) +:+ x +:+ (r +:+ b) +:+ rest) (l +:+ x +:+ r));
      apply contains_here
  | |- contains (?p +:+ ?s) _ => apply contains_skip; find_declaration
  end.

Lemma theme_css_declarations
    (bg_color text_color heading_color link_color code_bg border_color : string) :
  let css := theme_css bg_color text_color heading_color link_color code_bg
               border_color in
  contains css ("background-color: " +:+ bg_color +:+ ";")
  /\ contains css ("
                color: " +:+ text_color +:+ ";")
  /\ contains css ("h1, h2, h3, h4, h5, h6 {
                color: " +:+ heading_color +:+ ";")
  /\ contains css ("a {
                color: " +:+ link_color +:+ ";")
  /\ contains css ("code {
                background-color: " +:+ code_bg +:+ ";")
  /\ contains css ("border: 1px solid " +:+ border_color +:+ ";").
Proof.
  unfold theme_css. repeat split; find_declaration.
Qed.

Lemma in_style_block_contains (s decl : string) :
  in_style_block s decl -> contains s decl.
Proof.
  intros (head & css & tail & -> & pre & post & ->).
  exists (head +:+ "<style>" +:+ pre), (post +:+ "</style>" +:+ tail).
  by rewrite !string_app_assoc.
Qed.

(** C6.  Whatever the six colour strings are, each of them stands, as it was
    passed, in a declaration of the style element of the page: the background
    and the text colour in the rule for [body], the heading and link colours
    in their rules, the code background in the rule for [code], the border
    colour in the rule for table cells.  With the background colour [#000000]
    the page contains [background-color: #000000;]. *)
Theorem generate_html_template_colors
    (html_content bg_color text_color heading_color link_color code_bg
       border_color : string) :
  let page := generate_html_template html_content bg_color text_color
                heading_color link_color code_bg border_color in
  (in_style_block page ("background-color: " +:+ bg_color +:+ ";")
   /\ in_style_block page ("
                color: " +:+ text_color +:+ ";")
   /\ in_style_block page ("h1, h2, h3, h4, h5, h6 {
                color: " +:+ heading_color +:+ ";")
   /\ in_style_block page ("a {
                color: " +:+ link_color +:+ ";")
   /\ in_style_block page ("code {
                background-color: " +:+ code_bg +:+ ";")
   /\ in_style_block page ("border: 1px solid " +:+ border_color +:+ ";"))
  /\ contains
       (generate_html_template html_content "#000000" text_color heading_color
          link_color code_bg border_color)
       "background-color: #000000;".
Proof.
  assert (Hblock : forall bg decl,
            contains (theme_css bg text_color heading_color link_color code_bg
                        border_color) decl ->
            in_style_block
              (generate_html_template html_content bg text_color heading_color
                 link_color code_bg border_color) decl).
  { intros bg decl Hc. eexists _, _, _. split; [|exact Hc].
    apply generate_html_template_shape. }
  split.
  - destruct (theme_css_declarations bg_color text_color heading_color link_color
                code_bg border_color) as (H1 & H2 & H3 & H4 & H5 & H6).
    repeat split; by apply Hblock.
  - apply in_style_block_contains, Hblock.
    apply (theme_css_declarations "#000000").
Qed.

(** ** The computed directories are absolute *)

Lemma rstrip_slash_empty (s : string) :
  Str.rstrip_slash s = EmptyString -> Str.all_slashes s = true.
Proof.
  induction s as [|c s IH]; simpl; [done|].
  destruct (Str.rstrip_slash s) as [|c' r]; [|discriminate].
  destruct (Ascii.eqb c Str.slash); [|discriminate].
  intros _. by apply IH.
Qed.

Lemma dirname_isabs (p : string) :
  posixpath.isabs p = true -> posixpath.isabs (posixpath.dirname p) = true.
Proof.
  intros Hp. destruct (isabs_inv _ Hp) as [r ->].
  unfold posixpath.dirname.
  change (Str.upto_last_slash (String "/" r))
    with (String "/" (Str.upto_last_slash r)).
  set (h := Str.upto_last_slash r).
  change (Str.is_empty (String "/" h)) with false.
  change (Str.all_slashes (String "/" h)) with (Str.all_slashes h).
  simpl negb. rewrite andb_true_l.
  destruct (Str.all_slashes h) eqn:Hall; simpl; [apply isabs_cons|].
  destruct (Str.rstrip_slash h) as [|c' r'] eqn:Hr.
  - apply rstrip_slash_empty in Hr. congruence.
  - apply isabs_cons.
Qed.

Lemma getcwd_isabs (w : world) : posixpath.isabs (FS.getcwd w) = true.
Proof. unfold FS.getcwd. apply isabs_cons. Qed.

Lemma abspath_isabs (w : world) (p : string) :
  posixpath.isabs (posixpath.abspath (FS.getcwd w) p) = true.
Proof.
  unfold posixpath.abspath. destruct (posixpath.isabs p) eqn:Hp.
  - by apply normpath_isabs.
  - apply normpath_isabs, join_isabs, getcwd_isabs.
Qed.

(** X3.  The directory [main] derives from the output path (and [copy_images] from
    the input path) is an absolute path, hence never empty: the fallback to
    ['.'] in [main] is never taken. *)
Theorem dirname_abspath_absolute (w : world) (p : string) :
  let dir := posixpath.dirname (posixpath.abspath (FS.getcwd w) p) in
  posixpath.isabs dir = true
  /\ truthy dir = true
  /\ (if truthy dir then dir else ".") = dir.
Proof.
  intros dir.
  assert (Habs : posixpath.isabs dir = true) by apply dirname_isabs, abspath_isabs.
  destruct (isabs_inv _ Habs) as [r Hr].
  split; [exact Habs|]. rewrite Hr. split; reflexivity.
Qed.

(** ** The content in the template *)

(** X4.  The page is the content, as it was passed, inside a [body] element; what
    stands before and after it depends on the colours only. *)
Theorem generate_html_template_body
    (bg_color text_color heading_color link_color code_bg border_color : string) :
  exists pre post,
    contains pre "<style>"
    /\ forall html_content,
         generate_html_template html_content bg_color text_color heading_color
           link_color code_bg border_color
         = pre +:+ "<body>
        " +:+ html_content +:+ "
    </body>" +:+ post.
Proof.
  exists (template_head +:+ "<style>"
          +:+ theme_css bg_color text_color heading_color link_color code_bg
                border_color
          +:+ "</style>" +:+ "
    </head>
    "), "
    </html>
    ".
  split.
  - exists template_head. eexists. reflexivity.
  - intros html_content. rewrite generate_html_template_shape.
    unfold template_tail. rewrite !string_app_assoc. reflexivity.
Qed.

(** ** The tail of the PDF-producing branches *)

Lemma locate_temp_html (w : world) (k : path) :
  FS.locate w "temp.html" = inr k ->
  k = cwd w ++ ["temp.html"] /\ FS.lookup_node (nodes w) (cwd w) = Some Dir.
Proof.
  unfold FS.locate, FS.start. simpl.
  destruct (FS.lookup_node (nodes w) (cwd w)) as [[c t|]|]; try discriminate.
  change (FS.enter (cwd w) "temp.html") with (cwd w ++ ["temp.html"]).
  intros H. by inversion H.
Qed.

Lemma locate_for_write_locate (w : world) (p : string) (k : path) :
  FS.locate_for_write w p = inr k -> FS.locate w p = inr k.
Proof. intros H. by apply locate_for_write_inr in H as [H _]. Qed.

Lemma snoc_ne_self (dir : path) (name : string) : dir ++ [name] <> dir.
Proof.
  intros Heq. apply (f_equal length) in Heq. rewrite length_app in Heq.
  simpl in Heq. lia.
Qed.

(** [os.remove('temp.html')] returns as soon as the working directory is a
    directory and holds a regular file of that name. *)
Lemma os_remove_temp_html (w : world) (c : string) (t : nat) :
  FS.lookup_node (nodes w) (cwd w) = Some Dir ->
  nodes w !! (cwd w ++ ["temp.html"]) = Some (File c t) ->
  os_remove "temp.html" w
  = (Return tt,
     set_nodes (delete (cwd w ++ ["temp.html"]) (nodes w))
       (log (CallRemove "temp.html") w)).
Proof.
  intros Hdir Hfile. unfold os_remove, FS.locate, FS.start. simpl.
  rewrite Hdir.
  change (FS.enter (cwd w) "temp.html") with (cwd w ++ ["temp.html"]).
  rewrite lookup_node_snoc, Hfile. reflexivity.
Qed.

(** The working directory is a directory and holds a regular file
    [temp.html]: the name resolves to it. *)
Lemma stat_temp_html (w : world) (c : string) (t : nat) :
  FS.lookup_node (nodes w) (cwd w) = Some Dir ->
  nodes w !! (cwd w ++ ["temp.html"]) = Some (File c t) ->
  FS.stat w "temp.html" = inr (File c t) /\ FS.isfile w "temp.html" = true.
Proof.
  intros Hdir Hfile.
  assert (Hstat : FS.stat w "temp.html" = inr (File c t)).
  { unfold FS.stat, FS.locate, FS.start. simpl. rewrite Hdir.
    change (FS.enter (cwd w) "temp.html") with (cwd w ++ ["temp.html"]).
    by rewrite lookup_node_snoc, Hfile. }
  split; [exact Hstat|]. unfold FS.isfile. by rewrite Hstat.
Qed.

(** What [open('temp.html', 'w')] leaves when it returns. *)
Lemma open_write_temp_html (html_content : string) (w w1 : world) :
  open_write "temp.html" html_content w = (Return tt, w1) ->
  FS.lookup_node (nodes w) (cwd w) = Some Dir
  /\ FS.lookup_node (nodes w) (cwd w ++ ["temp.html"]) <> Some Dir
  /\ w1 = tick (set_nodes (<[cwd w ++ ["temp.html"] := File html_content (clock w)]>
                             (nodes w))
                  (log (CallWrite "temp.html") w)).
Proof.
  unfold open_write. intros Hopen.
  destruct (FS.locate_for_write w "temp.html") as [e|kt] eqn:Hk; [discriminate|].
  destruct (locate_for_write_inr _ _ _ Hk) as [Hloc Hnd].
  apply locate_temp_html in Hloc as [-> Hdir].
  by inversion Hopen.
Qed.

(** A regular file written where no directory is leaves the working
    directory a directory and [temp.html] a regular file, with its content
    unless it is the file written. *)
Lemma temp_html_after_write (m : gmap path node) (dir ko : path)
    (html_content x : string) (t t' : nat) :
  FS.lookup_node m dir = Some Dir ->
  m !! (dir ++ ["temp.html"]) = Some (File html_content t) ->
  FS.lookup_node m ko <> Some Dir ->
  let m' := <[ko := File x t']> m in
  FS.lookup_node m' dir = Some Dir
  /\ (exists c t0, m' !! (dir ++ ["temp.html"]) = Some (File c t0))
  /\ (ko <> dir ++ ["temp.html"] ->
      m' !! (dir ++ ["temp.html"]) = Some (File html_content t)).
Proof.
  intros Hdir Hfile Hnd m'. unfold m'. split; [|split].
  - rewrite lookup_node_insert_ne; [done|]. intros ->. by apply Hnd.
  - destruct (decide (ko = dir ++ ["temp.html"])) as [->|Hne].
    + eexists _, _. by rewrite lookup_insert_eq.
    + eexists _, _. by rewrite lookup_insert_ne.
  - intros Hne. by rewrite lookup_insert_ne.
Qed.

Section Tail.
Context {L : Libraries}.

(** The last three statements of a PDF-producing branch, by the outcome of
    the render: if [convert_html_to_pdf] returns, [os.remove] returns too and
    [temp.html] is gone; if it raises, the error is an [OSError], it is what
    the three statements raise, the world is the one the render left (no
    removal), and [temp.html] is still a regular file, with the HTML in it
    unless the output path names [temp.html] itself. *)
Lemma render_through_temp_cases
    (html_content output page_size margin : string) (w w1 w2 : world)
    (rc : outcome unit) :
  open_write "temp.html" html_content w = (Return tt, w1) ->
  convert_html_to_pdf "temp.html" output page_size margin w1 = (rc, w2) ->
  (rc = Return tt
   /\ exists w',
        render_through_temp html_content output page_size margin w = (Return tt, w')
        /\ FS.exists_ w' "temp.html" = false
        /\ nodes w' = delete (cwd w ++ ["temp.html"]) (nodes w2)
        /\ trace w' = trace w2 ++ [CallRemove "temp.html"])
  \/ (exists e,
        rc = Raise e /\ is_OSError e = true
        /\ render_through_temp html_content output page_size margin w = (Raise e, w2)
        /\ FS.isfile w2 "temp.html" = true
        /\ (FS.locate w1 output <> inr (cwd w ++ ["temp.html"]) ->
            FS.stat w2 "temp.html" = inr (File html_content (clock w)))).
Proof.
  intros Hopen Hconv.
  destruct (open_write_temp_html _ _ _ Hopen) as (Hdir & Hnd & Hw1).
  set (kt := cwd w ++ ["temp.html"]) in *.
  set (m1 := <[kt := File html_content (clock w)]> (nodes w)) in *.
  assert (Hdir1 : FS.lookup_node m1 (cwd w) = Some Dir).
  { unfold m1. rewrite lookup_node_insert_ne; [exact Hdir|]. apply snoc_ne_self. }
  assert (Hfile1 : m1 !! kt = Some (File html_content (clock w)))
    by (unfold m1; by rewrite lookup_insert_eq).
  assert (Hn1 : nodes w1 = m1) by (by rewrite Hw1).
  assert (Hc1 : cwd w1 = cwd w) by (by rewrite Hw1).
  set (w1' := log (CallRender output) w1) in *.
  assert (Hstat1' : FS.stat w1' "temp.html" = inr (File html_content (clock w))
                    /\ FS.isfile w1' "temp.html" = true).
  { apply stat_temp_html; simpl; rewrite Hn1, Hc1; done. }
  assert (Hsplit : forall r,
             rc = r ->
             render_through_temp html_content output page_size margin w
             = match r with
               | Return _ => os_remove "temp.html" w2
               | Raise e => (Raise e, w2)
               | Exit c => (Exit c, w2)
               end).
  { intros r <-. unfold render_through_temp. unfold bind at 1. rewrite Hopen.
    unfold bind at 1. rewrite Hconv. by destruct rc as [[]|e|c]. }
  (* the outcome of the render, and the world it leaves *)
  assert (Hcases :
    (rc = Return tt
     /\ exists ko pdf, FS.lookup_node m1 ko <> Some Dir
                       /\ nodes w2 = <[ko := File pdf (clock w1)]> m1
                       /\ cwd w2 = cwd w)
    \/ (rc = Raise IOError
        /\ ((nodes w2 = m1 /\ cwd w2 = cwd w)
            \/ exists ko partial,
                 FS.lookup_node m1 ko <> Some Dir
                 /\ FS.locate w1 output = inr ko
                 /\ nodes w2 = <[ko := File partial (clock w1)]> m1
                 /\ cwd w2 = cwd w))).
  { unfold convert_html_to_pdf, pdfkit_from_file in Hconv. fold w1' in Hconv.
    destruct Hstat1' as [Hstat1' _]. rewrite Hstat1' in Hconv.
    unfold pdfkit_to_pdf in Hconv.
    destruct (negb wkhtmltopdf_installed).
    { right. inversion Hconv; subst rc w2. split; [done|]. left. by rewrite <- Hn1. }
    destruct (wkhtmltopdf _ _ _ _) as [pdf|].
    - destruct (FS.locate_for_write w1' output) as [e|ko] eqn:Hko.
      + right. inversion Hconv; subst rc w2. split; [done|]. left.
        by rewrite <- Hn1.
      + left. inversion Hconv; subst rc w2. split; [done|].
        exists ko, pdf. apply locate_for_write_not_dir in Hko.
        simpl in Hko. rewrite Hn1 in Hko. simpl. by rewrite Hn1.
    - destruct (wkhtmltopdf_leaves _ _ _ _) as [partial|].
      2:{ right. inversion Hconv; subst rc w2. split; [done|]. left.
          by rewrite <- Hn1. }
      destruct (FS.locate_for_write w1' output) as [e|ko] eqn:Hko.
      + right. inversion Hconv; subst rc w2. split; [done|]. left.
        by rewrite <- Hn1.
      + right. inversion Hconv; subst rc w2. split; [done|]. right.
        exists ko, partial.
        destruct (locate_for_write_inr _ _ _ Hko) as [Hloc Hnd1].
        simpl in Hnd1. rewrite Hn1 in Hnd1. simpl. by rewrite Hn1. }
  destruct Hcases as [[-> (ko & pdf & Hko & Hn2 & Hc2)]
                     | [-> [[Hn2 Hc2] | (ko & partial & Hko & Hloc & Hn2 & Hc2)]]].
  - left. split; [reflexivity|].
    destruct (temp_html_after_write m1 (cwd w) ko html_content pdf (clock w)
                (clock w1) Hdir1 Hfile1 Hko) as (Hd2 & (c & t0 & Hf2) & _).
    assert (Hrm : os_remove "temp.html" w2
                  = (Return tt,
                     set_nodes (delete (cwd w2 ++ ["temp.html"]) (nodes w2))
                       (log (CallRemove "temp.html") w2))).
    { apply (os_remove_temp_html w2 c t0); rewrite Hn2, Hc2; done. }
    eexists. split; [rewrite (Hsplit (Return tt) eq_refl); exact Hrm|].
    split; [by apply (os_remove_gone _ _ _ Hrm)|].
    split; [simpl; by rewrite Hc2 | reflexivity].
  - right. exists IOError. split; [reflexivity|]. split; [reflexivity|].
    split; [exact (Hsplit (Raise IOError) eq_refl)|].
    assert (Hs : FS.stat w2 "temp.html" = inr (File html_content (clock w))
                 /\ FS.isfile w2 "temp.html" = true)
      by (apply stat_temp_html; rewrite Hn2, Hc2; done).
    destruct Hs as [Hs Hi]. split; [exact Hi|]. intros _. exact Hs.
  - right. exists IOError. split; [reflexivity|]. split; [reflexivity|].
    split; [exact (Hsplit (Raise IOError) eq_refl)|].
    destruct (temp_html_after_write m1 (cwd w) ko html_content partial (clock w)
                (clock w1) Hdir1 Hfile1 Hko) as (Hd2 & (c & t0 & Hf2) & Hne).
    split.
    + apply (stat_temp_html w2 c t0); rewrite Hn2, Hc2; done.
    + intros Hout. apply (stat_temp_html w2 html_content (clock w));
        rewrite Hn2, Hc2; [done|]. apply Hne. intros ->. by apply Hout.
Qed.


End Tail.

(** ** C2: the temporary file, by the outcome of the render *)

Section TempFile.
Context {L : Libraries}.

(** A PDF-producing branch of [main] is the part before [temp.html]
    followed by the three statements around the render. *)
Lemma main_pdf_split (args : Namespace) (cmd : command) (w : world) :
  args_command args = Some cmd ->
  cmd = md_to_pdf \/ cmd = html_to_pdf ->
  main args w
  = (html_content <- pdf_document args cmd ;;
     render_through_temp html_content (output_of args cmd) (args_page_size args)
       (args_margin args)) w.
Proof.
  intros Hcmd Hpdf.
  unfold main, pdf_document, check_wkhtmltopdf, render_through_temp, output_of.
  rewrite Hcmd. unfold bind.
  destruct (try_except_OSError _ _ w) as [[[]|e|c] wa]; [|reflexivity|reflexivity].
  destruct Hpdf as [-> | ->]; cbv beta zeta iota.
  - destruct (convert_markdown_to_html _ _ _ _ _ _ _ wa) as [[h|e|c] wb];
      [|reflexivity|reflexivity].
    destruct (copy_images _ _ _ _ wb) as [[h'|e|c] wc]; reflexivity.
  - destruct (open_read _ wa) as [[h|e|c] wb]; [|reflexivity|reflexivity].
    destruct (copy_images _ _ _ _ wb) as [[h'|e|c] wc]; reflexivity.
Qed.

(** C2, as the program has it.  Take a PDF-producing run in which everything
    before the render returned: the part of [main] before [temp.html] gave
    the HTML, and [temp.html] was written.  If the render returns, [main]
    returns, the last call it made is the removal of [temp.html], and the
    file does not exist in the world [main] leaves.  If the render raises,
    [main] raises the same exception in the world the render left: the
    removal is not reached, and [temp.html] is still a regular file there. *)
Theorem temp_html_removed_after_render (args : Namespace) (cmd : command)
    (html_content : string) (w w0 w1 w2 : world) (rc : outcome unit) :
  args_command args = Some cmd ->
  cmd = md_to_pdf \/ cmd = html_to_pdf ->
  pdf_document args cmd w = (Return html_content, w0) ->
  open_write "temp.html" html_content w0 = (Return tt, w1) ->
  convert_html_to_pdf "temp.html" (output_of args cmd) (args_page_size args)
    (args_margin args) w1 = (rc, w2) ->
  (rc = Return tt
   /\ exists w',
        main args w = (Return tt, w')
        /\ FS.exists_ w' "temp.html" = false
        /\ trace w' = trace w2 ++ [CallRemove "temp.html"])
  \/ (exists e,
        rc = Raise e
        /\ main args w = (Raise e, w2)
        /\ FS.isfile w2 "temp.html" = true).
Proof.
  intros Hcmd Hpdf Hdoc Hopen Hconv.
  rewrite (main_pdf_split args cmd w Hcmd Hpdf).
  rewrite (bind_Return_eq _ _ _ _ _ Hdoc).
  destruct (render_through_temp_cases _ _ _ _ _ _ _ _ Hopen Hconv)
    as [(-> & w' & Hrun & Hgone & _ & Htrace) | (e & -> & _ & Hrun & Hfile & _)].
  - left. split; [reflexivity|]. by exists w'.
  - right. by exists e.
Qed.

End TempFile.

Section TailSuccess.
Context {L : Libraries}.

(** X6.  The tail of a PDF-producing branch, when everything works: the renderer
    is given the HTML that was written to [temp.html], with the page size and
    the one margin on all four sides; the output path receives the PDF;
    [temp.html] is removed, whether or not a file of that name existed
    before; no other node changes, and the three calls are made in this
    order. *)
Theorem render_through_temp_success
    (html_content output page_size margin pdf : string) (w : world)
    (kt ko : path) :
  let files := <[kt := File html_content (clock w)]> (nodes w) in
  let options :=
    [("page-size", Some page_size); ("margin-top", Some margin);
     ("margin-right", Some margin); ("margin-bottom", Some margin);
     ("margin-left", Some margin); ("encoding", Some "UTF-8");
     ("no-outline", None)] in
  FS.locate_for_write w "temp.html" = inr kt ->
  wkhtmltopdf_installed = true ->
  wkhtmltopdf files (cwd w) html_content options = Some pdf ->
  FS.locate_for_write (set_nodes files w) output = inr ko ->
  ko <> kt ->
  exists w',
    render_through_temp html_content output page_size margin w = (Return tt, w')
    /\ nodes w' = delete kt (<[ko := File pdf (S (clock w))]> files)
    /\ nodes w' !! ko = Some (File pdf (S (clock w)))
    /\ nodes w' !! kt = None
    /\ trace w'
       = trace w ++ [CallWrite "temp.html"; CallRender output; CallRemove "temp.html"].
Proof.
  intros files options Hkt Hinst Hpdf Hko Hne.
  pose proof (locate_for_write_not_dir _ _ _ Hkt) as Hnd.
  destruct (locate_temp_html _ _ (locate_for_write_locate _ _ _ Hkt)) as [Hkeq Hdir].
  set (w1 := tick (set_nodes files (log (CallWrite "temp.html") w))).
  assert (Hopen : open_write "temp.html" html_content w = (Return tt, w1))
    by (unfold open_write; by rewrite Hkt).
  assert (Hstat1 : FS.stat (log (CallRender output) w1) "temp.html"
                   = inr (File html_content (clock w))).
  { unfold FS.stat, FS.locate, FS.start. simpl. unfold files.
    rewrite lookup_node_insert_ne; [|rewrite Hkeq; apply snoc_ne_self].
    rewrite Hdir.
    change (FS.enter (cwd w) "temp.html") with (cwd w ++ ["temp.html"]).
    rewrite <- Hkeq.
    destruct kt as [|x kt']; [by destruct Hnd|].
    simpl. by rewrite lookup_insert_eq. }
  set (w2 := tick (set_nodes (<[ko := File pdf (S (clock w))]> files)
                     (log (CallRender output) w1))).
  assert (Hconv : convert_html_to_pdf "temp.html" output page_size margin w1
                  = (Return tt, w2)).
  { unfold convert_html_to_pdf, pdfkit_from_file. rewrite Hstat1.
    unfold pdfkit_to_pdf. rewrite Hinst. simpl negb. cbv iota.
    change (nodes (log (CallRender output) w1)) with files.
    change (cwd (log (CallRender output) w1)) with (cwd w).
    fold options. rewrite Hpdf.
    change (FS.locate_for_write (log (CallRender output) w1) output)
      with (FS.locate_for_write (set_nodes files w) output).
    rewrite Hko. reflexivity. }
  assert (Hdir2 : FS.lookup_node (nodes w2) (cwd w2) = Some Dir).
  { simpl. pose proof (locate_for_write_not_dir _ _ _ Hko) as Hnd2. simpl in Hnd2.
    assert (Hd1 : FS.lookup_node files (cwd w) = Some Dir).
    { unfold files. rewrite lookup_node_insert_ne; [exact Hdir|].
      rewrite Hkeq. apply snoc_ne_self. }
    rewrite lookup_node_insert_ne; [exact Hd1|]. intros ->. by apply Hnd2. }
  assert (Hfile2 : nodes w2 !! (cwd w2 ++ ["temp.html"])
                   = Some (File html_content (clock w))).
  { simpl. rewrite <- Hkeq. rewrite lookup_insert_ne by done.
    unfold files. by rewrite lookup_insert_eq. }
  pose proof (os_remove_temp_html w2 _ _ Hdir2 Hfile2) as Hrm.
  eexists. split; [|split; [|split; [|split]]].
  - unfold render_through_temp. unfold bind at 1. rewrite Hopen.
    unfold bind at 1. rewrite Hconv. exact Hrm.
  - simpl. by rewrite <- Hkeq.
  - simpl. rewrite <- Hkeq. rewrite lookup_delete_ne by done.
    by rewrite lookup_insert_eq.
  - simpl. rewrite <- Hkeq. by rewrite lookup_delete_eq.
  - simpl. by rewrite <- !app_assoc.
Qed.

End TailSuccess.

(** ** What [main] can change *)

Section Maintains.
Context (P : world -> Prop) (HP : stable P).

Lemma maintains_ret {A : Type} (a : A) : maintains P (ret a).
Proof. intros w r w' Hw H. by inversion H; subst. Qed.

Lemma maintains_raise {A : Type} (e : exn) : maintains P (@raise A e).
Proof. intros w r w' Hw H. by inversion H; subst. Qed.

Lemma maintains_bind {A B : Type} (m : M A) (k : A -> M B) :
  maintains P m -> (forall a, maintains P (k a)) -> maintains P (bind m k).
Proof.
  intros Hm Hk w r w' Hw H. unfold bind in H.
  destruct (m w) as [[a|e|c] w1] eqn:Hmw.
  - eapply Hk; [|exact H]. eapply Hm; eauto.
  - inversion H; subst. eapply Hm; eauto.
  - inversion H; subst. eapply Hm; eauto.
Qed.

Lemma maintains_run {A : Type} (m : M A) (w w' : world) (r : outcome A) :
  maintains P m -> P w -> m w = (r, w') -> P w'.
Proof. intros Hm Hw H. by apply (Hm w r w'). Qed.

Lemma maintains_print (line : string) : maintains P (print line).
Proof.
  intros w r w' Hw H. inversion H; subst.
  by apply (stable_same P HP w).
Qed.

Lemma maintains_os_path_exists (p : string) : maintains P (os_path_exists p).
Proof.
  intros w r w' Hw H. inversion H; subst.
  by apply (stable_same P HP w).
Qed.

Lemma maintains_open_read (p : string) : maintains P (open_read p).
Proof.
  intros w r w' Hw H. unfold open_read in H.
  destruct (FS.stat w p) as [e|[c t|]]; [| destruct (Text.utf8_valid c) |];
    inversion H; subst; by apply (stable_same P HP w).
Qed.

Lemma maintains_os_makedirs (p : string) : maintains P (os_makedirs p).
Proof.
  intros w r w' Hw H. unfold os_makedirs in H.
  destruct (Str.is_empty p).
  { inversion H; subst. by apply (stable_same P HP w). }
  destruct (FS.mkdirs (nodes w) (FS.start w p) (Str.split p)) as [m' [e|]] eqn:Hm;
    inversion H; subst;
    apply (stable_mkdirs P HP w _ (FS.start w p) (Str.split p)); try done;
    simpl; by rewrite Hm.
Qed.

Lemma maintains_open_write (p content : string) : maintains P (open_write p content).
Proof.
  intros w r w' Hw H. unfold open_write in H.
  destruct (FS.locate_for_write w p) as [e|k] eqn:Hk; inversion H; subst.
  - by apply (stable_same P HP w).
  - apply locate_for_write_not_dir in Hk.
    by apply (stable_write P HP w _ k content (clock w)).
Qed.

Lemma maintains_shutil_copyfile (src dst : string) :
  maintains P (shutil_copyfile src dst).
Proof.
  intros w r w' Hw H. unfold shutil_copyfile in H.
  destruct (FS.samefile w src dst); [by inversion H; subst|].
  destruct (FS.stat w src) as [e|[c t|]]; try (by inversion H; subst).
  destruct (FS.locate_for_write w dst) as [e|k] eqn:Hk; inversion H; subst; [done|].
  apply locate_for_write_not_dir in Hk.
  by apply (stable_write P HP w _ k c (clock w)).
Qed.

Lemma maintains_shutil_copystat (src dst : string) :
  maintains P (shutil_copystat src dst).
Proof.
  intros w r w' Hw H. unfold shutil_copystat in H.
  destruct (FS.stat w src) as [e|[c t|]];
    destruct (FS.locate w dst) as [e'|k]; try (by inversion H; subst).
  destruct (FS.lookup_node (nodes w) k) as [[c' t'|]|] eqn:Hk;
    inversion H; subst; try done.
  apply (stable_write P HP w _ k c' t); try done. congruence.
Qed.

Lemma maintains_shutil_copy2 (src dst : string) : maintains P (shutil_copy2 src dst).
Proof.
  intros w r w' Hw H. unfold shutil_copy2 in H.
  eapply maintains_run; [| |exact H].
  - apply maintains_bind; [apply maintains_shutil_copyfile|].
    intros _. apply maintains_shutil_copystat.
  - by apply (stable_same P HP w).
Qed.

Lemma maintains_os_remove_temp : maintains P (os_remove "temp.html").
Proof.
  intros w r w' Hw H. unfold os_remove in H.
  destruct (FS.locate w "temp.html") as [e|k] eqn:Hloc.
  { inversion H; subst. by apply (stable_same P HP w). }
  apply locate_temp_html in Hloc as [-> Hdir].
  destruct (FS.lookup_node (nodes w) (cwd w ++ ["temp.html"])) as [[c t|]|] eqn:Hk;
    inversion H; subst; try by apply (stable_same P HP w).
  rewrite lookup_node_snoc in Hk.
  by apply (stable_remove_temp P HP w _ c t).
Qed.

Lemma maintains_copy_images_body (input_dir output_dir : string) (img : nat)
    (sp : soup) :
  maintains P (copy_images_body input_dir output_dir img sp).
Proof.
  unfold copy_images_body.
  destruct (tag_get sp img "src") as [src0|]; [|apply maintains_ret].
  destruct (truthy src0); [|apply maintains_ret].
  apply maintains_bind; [apply maintains_os_path_exists|].
  intros [|]; [|apply maintains_ret].
  apply maintains_bind.
  { destruct (truthy _); [apply maintains_os_makedirs | apply maintains_ret]. }
  intros _. apply maintains_bind; [apply maintains_shutil_copy2|].
  intros _. apply maintains_ret.
Qed.

Lemma maintains_copy_images_loop (input_dir output_dir : string)
    (img_tags : list nat) :
  forall sp, maintains P (copy_images_loop input_dir output_dir img_tags sp).
Proof.
  induction img_tags as [|img rest IH]; intros sp; simpl.
  - apply maintains_ret.
  - apply maintains_bind; [apply maintains_copy_images_body | exact IH].
Qed.

Context {L : Libraries}.

Lemma maintains_pdfkit_to_pdf (input output_path : string)
    (options : list (string * option string)) :
  maintains P (pdfkit_to_pdf input options output_path).
Proof.
  intros w r w' Hw H. unfold pdfkit_to_pdf in H.
  destruct (negb wkhtmltopdf_installed); [by inversion H; subst|].
  destruct (wkhtmltopdf _ _ _ _) as [pdf|].
  - destruct (FS.locate_for_write w output_path) as [e|k] eqn:Hk; inversion H; subst;
      [done|].
    apply locate_for_write_not_dir in Hk.
    by apply (stable_write P HP w _ k pdf (clock w)).
  - destruct (wkhtmltopdf_leaves _ _ _ _) as [partial|]; [|by inversion H; subst].
    destruct (FS.locate_for_write w output_path) as [e|k] eqn:Hk; inversion H; subst;
      [done|].
    apply locate_for_write_not_dir in Hk.
    by apply (stable_write P HP w _ k partial (clock w)).
Qed.

Lemma maintains_pdfkit_from_string (input output_path : string) :
  maintains P (pdfkit_from_string input output_path).
Proof.
  intros w r w' Hw H. unfold pdfkit_from_string in H.
  eapply maintains_pdfkit_to_pdf; [|exact H].
  by apply (stable_same P HP w).
Qed.

Lemma maintains_pdfkit_from_file (input output_path : string)
    (options : list (string * option string)) :
  maintains P (pdfkit_from_file input output_path options).
Proof.
  intros w r w' Hw H. unfold pdfkit_from_file in H.
  assert (Hlog : P (log (CallRender output_path) w))
    by (by apply (stable_same P HP w)).
  destruct (FS.stat _ input) as [e|[c t|]]; try (by inversion H; subst).
  eapply maintains_pdfkit_to_pdf; eauto.
Qed.

Lemma maintains_copy_images (html_content input_file output_dir : string)
    (no_images : bool) :
  maintains P (copy_images html_content input_file output_dir no_images).
Proof.
  unfold copy_images. destruct no_images; [apply maintains_ret|].
  intros w r w' Hw H. eapply maintains_run; [|exact Hw|exact H].
  apply maintains_bind; [apply maintains_os_makedirs|].
  intros _. apply maintains_bind; [apply maintains_copy_images_loop|].
  intros sp'. apply maintains_ret.
Qed.

Lemma maintains_convert_markdown_to_html
    (input_file bg text heading link code border : string) :
  maintains P (convert_markdown_to_html input_file bg text heading link code border).
Proof.
  unfold convert_markdown_to_html.
  apply maintains_bind; [apply maintains_open_read|].
  intros md. apply maintains_ret.
Qed.

Lemma maintains_render_through_temp (html_content output page_size margin : string) :
  maintains P (render_through_temp html_content output page_size margin).
Proof.
  unfold render_through_temp.
  apply maintains_bind; [apply maintains_open_write|].
  intros _. apply maintains_bind; [apply maintains_pdfkit_from_file|].
  intros _. apply maintains_os_remove_temp.
Qed.

Lemma maintains_check_wkhtmltopdf : maintains P check_wkhtmltopdf.
Proof.
  intros w r w' Hw H. unfold check_wkhtmltopdf, try_except_OSError in H.
  destruct (pdfkit_from_string EmptyString "test.pdf" w) as [[[]|e|c] w1] eqn:Hp.
  - inversion H; subst. eapply maintains_pdfkit_from_string; eauto.
  - assert (Hw1 : P w1) by (eapply maintains_pdfkit_from_string; eauto).
    destruct (is_OSError e); [|by inversion H; subst].
    eapply maintains_run; [|exact Hw1|exact H].
    repeat (apply maintains_bind; [apply maintains_print|]; intros _).
    intros w2 r2 w2' Hw2 H2. by inversion H2; subst.
  - inversion H; subst. eapply maintains_pdfkit_from_string; eauto.
Qed.

(** Whatever the command line, [main] changes the filesystem only by the
    four kinds of change of [stable]: a property they keep holds in the world
    [main] leaves, however it ends. *)
Lemma main_maintains (args : Namespace) : maintains P (main args).
Proof.
  unfold main.
  apply maintains_bind; [apply maintains_check_wkhtmltopdf|].
  intros _. destruct (args_command args) as [[| |]|].
  - intros w r w' Hw H. eapply maintains_run; [|exact Hw|exact H].
    apply maintains_bind; [apply maintains_convert_markdown_to_html|].
    intros h1. apply maintains_bind; [apply maintains_copy_images|].
    intros h2. apply maintains_render_through_temp.
  - intros w r w' Hw H. eapply maintains_run; [|exact Hw|exact H].
    apply maintains_bind; [apply maintains_convert_markdown_to_html|].
    intros h1. apply maintains_bind; [apply maintains_copy_images|].
    intros h2. apply maintains_open_write.
  - intros w r w' Hw H. eapply maintains_run; [|exact Hw|exact H].
    apply maintains_bind; [apply maintains_open_read|].
    intros h1. apply maintains_bind; [apply maintains_copy_images|].
    intros h2. apply maintains_render_through_temp.
  - apply maintains_raise.
Qed.

End Maintains.

Lemma mkdirs_mono_raw (comps : list string) :
  forall (m : gmap path node) (cur k : path) (n : node),
    m !! k = Some n -> (FS.mkdirs m cur comps).1 !! k = Some n.
Proof.
  induction comps as [|c rest IH]; intros m cur k n Hk; simpl; [done|].
  destruct (FS.lookup_node m cur) as [[c' t'|]|]; try done.
  destruct (FS.special c); [by apply IH|].
  destruct (FS.lookup_node m (cur ++ [c])) as [[c' t'|]|] eqn:Hc; try done.
  - by apply IH.
  - apply IH. rewrite lookup_insert_ne; [done|].
    intros <-. rewrite lookup_node_snoc in Hc. congruence.
Qed.

Lemma stays_stable (dir k : path) :
  k <> dir ++ ["temp.html"] -> stable (stays dir k).
Proof.
  intros Hne. split.
  - intros w w0 Hn Hc [Hcwd Hk]. split; [congruence|]. by rewrite Hn.
  - intros w w0 k0 c t _ Hn Hc [Hcwd Hk]. split; [congruence|]. rewrite Hn.
    destruct (decide (k0 = k)) as [->|Hk0].
    + rewrite lookup_insert_eq. by eexists.
    + by rewrite lookup_insert_ne.
  - intros w w0 cur comps Hn Hc [Hcwd [n Hk]]. split; [congruence|]. rewrite Hn.
    exists n. by apply mkdirs_mono_raw.
  - intros w w0 c t _ _ Hn Hc [Hcwd Hk]. split; [congruence|]. rewrite Hn.
    rewrite lookup_delete_ne; [done|]. by rewrite Hcwd.
Qed.

Lemma stays_dir_stable (dir k : path) : stable (stays_dir dir k).
Proof.
  split.
  - intros w w0 Hn Hc [Hcwd Hk]. split; [congruence|]. by rewrite Hn.
  - intros w w0 k0 c t Hnd Hn Hc [Hcwd Hk]. split; [congruence|]. rewrite Hn.
    rewrite lookup_insert_ne; [done|]. intros ->. apply Hnd.
    destruct k as [|x k']; [done|exact Hk].
  - intros w w0 cur comps Hn Hc [Hcwd Hk]. split; [congruence|]. rewrite Hn.
    by apply mkdirs_mono_raw.
  - intros w w0 c t _ Hfile Hn Hc [Hcwd Hk]. split; [congruence|]. rewrite Hn.
    rewrite lookup_delete_ne; [done|]. intros Heq. rewrite Heq in Hfile. congruence.
Qed.

Section Frame.
Context {L : Libraries}.

(** X7.  [main] never changes its working directory, never removes anything but
    [temp.html] of the working directory, and never replaces or removes a
    directory: whatever exists elsewhere before the run exists after it,
    however the run ends, and what was a directory is one still. *)
Theorem main_removes_only_temp_html (args : Namespace) (w : world) (k : path) :
  let w' := (main args w).2 in
  cwd w' = cwd w
  /\ (is_Some (nodes w !! k) -> k <> cwd w ++ ["temp.html"] ->
      is_Some (nodes w' !! k))
  /\ (nodes w !! k = Some Dir -> nodes w' !! k = Some Dir).
Proof.
  intros w'. subst w'. destruct (main args w) as [r w'] eqn:Hmain. simpl.
  split; [|split].
  - assert (HQ : stable (fun w0 => cwd w0 = cwd w))
      by (split; intros; congruence).
    by apply (main_maintains _ HQ args w r w').
  - intros Hk Hne.
    by apply (main_maintains (stays (cwd w) k) (stays_stable _ _ Hne) args w r w').
  - intros Hk.
    by apply (main_maintains (stays_dir (cwd w) k) (stays_dir_stable _ _) args w r w').
Qed.

End Frame.

(** ** C9: the output directory, whatever the document *)




Section OutputDir.
Context {L : Libraries}.


End OutputDir.

(** ** What relocation changes in the document *)

Lemma same_but_src_refl (e : element) : same_but_src e e.
Proof. destruct e; simpl; auto. Qed.

Lemma same_but_src_trans (e1 e2 e3 : element) :
  same_but_src e1 e2 -> same_but_src e2 e3 -> same_but_src e1 e3.
Proof.
  destruct e1, e2, e3; simpl; try done.
  - intros (-> & Hk1 & Hv1) (-> & Hk2 & Hv2).
    split; [done|]. split; [congruence|].
    intros key Hkey. rewrite Hv2, Hv1; auto.
  - congruence.
Qed.

Lemma attrs_set_keys (attrs : list (string * string)) (key value old : string) :
  attrs_get attrs key = Some old ->
  map fst (attrs_set attrs key value) = map fst attrs.
Proof.
  induction attrs as [|[k v] rest IH]; simpl; [discriminate|].
  destruct (String.eqb k key) eqn:E; simpl; [done|].
  intros H. by rewrite IH.
Qed.

Lemma attrs_get_set_ne (attrs : list (string * string)) (key key' value : string) :
  key' <> key ->
  attrs_get (attrs_set attrs key value) key' = attrs_get attrs key'.
Proof.
  intros Hne. induction attrs as [|[k v] rest IH]; simpl.
  - destruct (String.eqb key key') eqn:E; [|done].
    apply String.eqb_eq in E. congruence.
  - destruct (String.eqb k key) eqn:E; simpl.
    + apply String.eqb_eq in E. subst k.
      destruct (String.eqb key key') eqn:E'; [|done].
      apply String.eqb_eq in E'. congruence.
    + by rewrite IH.
Qed.

Lemma tag_set_same_but_src (sp : soup) (img : nat) (value old : string)
    (j : nat) (e : element) :
  tag_get sp img "src" = Some old ->
  sp !! j = Some e ->
  exists e', tag_set sp img "src" value !! j = Some e'
             /\ same_but_src e e' /\ (j <> img -> e' = e).
Proof.
  intros Hget Hj. unfold tag_get, tag_set in *.
  destruct (sp !! img) as [[name attrs|text]|] eqn:Himg; try discriminate.
  destruct (decide (j = img)) as [->|Hne].
  - rewrite list_lookup_insert_eq by (by apply lookup_lt_Some in Himg).
    eexists. split; [reflexivity|]. split; [|done].
    rewrite Himg in Hj. inversion Hj; subst e. simpl.
    split; [done|]. split; [by apply (attrs_set_keys _ _ _ old)|].
    intros key Hkey. by apply attrs_get_set_ne.
  - rewrite list_lookup_insert_ne by done.
    exists e. split; [done|]. split; [apply same_but_src_refl|done].
Qed.

Lemma tag_set_length (sp : soup) (img : nat) (key value : string) :
  length (tag_set sp img key value) = length sp.
Proof.
  unfold tag_set. destruct (sp !! img) as [[name attrs|text]|]; try done.
  apply length_insert.
Qed.

(** What one round returns: the soup as it was, or the soup with the source
    of its own element set. *)
Lemma copy_images_body_result (input_dir output_dir : string) (img : nat)
    (sp sp' : soup) (w w' : world) :
  copy_images_body input_dir output_dir img sp w = (Return sp', w') ->
  sp' = sp
  \/ exists src0,
       tag_get sp img "src" = Some src0
       /\ sp' = tag_set sp img "src" (normalized_src input_dir src0).
Proof.
  unfold copy_images_body. intros H.
  destruct (tag_get sp img "src") as [src0|]; [|left; by inversion H].
  destruct (truthy src0); [|left; by inversion H].
  unfold bind in H. simpl in H.
  destruct (FS.exists_ w _); [|left; by inversion H].
  match type of H with
  | context [if ?c then _ else _] => destruct c
  end.
  - destruct (os_makedirs _ _) as [[[]|e|c] w1]; try discriminate.
    destruct (shutil_copy2 _ _ _) as [[[]|e|c] w2]; try discriminate.
    right. exists src0. by inversion H.
  - unfold ret in H.
    destruct (shutil_copy2 _ _ _) as [[[]|e|c] w2]; try discriminate.
    right. exists src0. by inversion H.
Qed.

Lemma copy_images_loop_same_but_src (input_dir output_dir : string)
    (img_tags : list nat) :
  forall (sp sp' : soup) (w w' : world),
    copy_images_loop input_dir output_dir img_tags sp w = (Return sp', w') ->
    length sp' = length sp
    /\ forall j e, sp !! j = Some e ->
         exists e', sp' !! j = Some e' /\ same_but_src e e'
                    /\ (j ∉ img_tags -> e' = e).
Proof.
  induction img_tags as [|img rest IH]; intros sp sp' w w' H; simpl in H.
  - inversion H; subst. split; [done|]. intros j e Hj.
    exists e. split; [done|]. split; [apply same_but_src_refl|done].
  - unfold bind in H.
    destruct (copy_images_body input_dir output_dir img sp w)
      as [[sp1|e|c] w1] eqn:Hbody; try discriminate.
    destruct (IH _ _ _ _ H) as [Hlen Hrest].
    assert (Hstep : length sp1 = length sp
                    /\ forall j e, sp !! j = Some e ->
                         exists e1, sp1 !! j = Some e1 /\ same_but_src e e1
                                    /\ (j <> img -> e1 = e)).
    { destruct (copy_images_body_result _ _ _ _ _ _ _ Hbody)
        as [->|(src0 & Hget & ->)].
      - split; [done|]. intros j e Hj. exists e.
        split; [done|]. split; [apply same_but_src_refl|done].
      - split; [apply tag_set_length|]. intros j e Hj.
        by apply (tag_set_same_but_src sp img _ src0). }
    destruct Hstep as [Hlen1 Hstep]. split; [congruence|].
    intros j e Hj.
    destruct (Hstep j e Hj) as (e1 & Hj1 & Hs1 & Hne1).
    destruct (Hrest j e1 Hj1) as (e' & Hj' & Hs' & Hne').
    exists e'. split; [done|]. split; [by eapply same_but_src_trans|].
    intros Hnotin. apply not_elem_of_cons in Hnotin as [Hne Hnotin].
    rewrite (Hne' Hnotin). by apply Hne1.
Qed.

(** X8.  Relocation over the image elements of a document keeps the document's
    shape: the soup has as many elements as before, each element keeps its
    kind, its name, its attribute keys in their order and every attribute
    value but that of [src]; and an element that is not an [img] tag is left
    exactly as it was. *)
Theorem copy_images_changes_only_src (input_dir output_dir : string)
    (sp sp' : soup) (w w' : world) :
  copy_images_loop input_dir output_dir (find_all sp "img") sp w = (Return sp', w') ->
  length sp' = length sp
  /\ forall j e, sp !! j = Some e ->
       exists e', sp' !! j = Some e' /\ same_but_src e e'
                  /\ (is_tag "img" e = false -> e' = e).
Proof.
  intros H. destruct (copy_images_loop_same_but_src _ _ _ _ _ _ _ H) as [Hlen Hall].
  split; [exact Hlen|]. intros j e Hj.
  destruct (Hall j e Hj) as (e' & Hj' & Hs & Hne).
  exists e'. split; [done|]. split; [done|].
  intros Himg. apply Hne. unfold find_all. rewrite find_all_from_spec.
  intros (e0 & _ & He0 & Htag). rewrite Nat.sub_0_r in He0. congruence.
Qed.

(** ** Documents whose images are all out of reach *)

Lemma copy_images_loop_nothing (input_dir output_dir : string) (sp : soup)
    (w1 : world) (img_tags : list nat) :
  forall w0,
    nodes w0 = nodes w1 -> cwd w0 = cwd w1 ->
    (forall img, img ∈ img_tags -> nothing_to_relocate input_dir sp w1 img) ->
    exists w',
      copy_images_loop input_dir output_dir img_tags sp w0 = (Return sp, w')
      /\ nodes w' = nodes w1 /\ cwd w' = cwd w1.
Proof.
  induction img_tags as [|img rest IH]; intros w0 Hn Hc Hall; simpl.
  - by exists w0.
  - assert (Hbody : exists w0',
               copy_images_body input_dir output_dir img sp w0 = (Return sp, w0')
               /\ nodes w0' = nodes w1 /\ cwd w0' = cwd w1).
    { specialize (Hall img (list_elem_of_here _ _)).
      unfold nothing_to_relocate in Hall. unfold copy_images_body.
      destruct (tag_get sp img "src") as [src0|]; [|by exists w0].
      destruct (truthy src0) eqn:Ht; [|by exists w0].
      destruct Hall as [Hall|Hall]; [discriminate|].
      unfold bind, os_path_exists.
      rewrite (exists_nodes_cwd w1 w0 _ Hn Hc), Hall.
      by eexists. }
    destruct Hbody as (w0' & Hbody & Hn' & Hc').
    unfold bind. rewrite Hbody.
    apply IH; try done. intros i Hi. apply Hall. by apply list_elem_of_further.
Qed.

Section PassThrough.
Context {L : Libraries}.

(** X9.  When no image element of the document has anything to relocate once the
    output directory is made, [copy_images] returns the document as the
    library parses and serializes it, and the filesystem is as [os.makedirs]
    left it: nothing is copied. *)
Theorem copy_images_passes_through (html_content input_file output_dir : string)
    (w w1 : world) :
  let sp := BeautifulSoup html_content in
  let input_dir := posixpath.dirname (posixpath.abspath (FS.getcwd w) input_file) in
  os_makedirs output_dir w = (Return tt, w1) ->
  (forall img, img ∈ find_all sp "img" -> nothing_to_relocate input_dir sp w1 img) ->
  exists w',
    copy_images html_content input_file output_dir false w
    = (Return (soup_str sp), w')
    /\ nodes w' = nodes w1 /\ cwd w' = cwd w1.
Proof.
  intros sp input_dir Hmk Hall.
  destruct (copy_images_loop_nothing input_dir output_dir sp w1
              (find_all sp "img") w1 eq_refl eq_refl Hall)
    as (w' & Hloop & Hn & Hc).
  exists w'. split; [|done].
  unfold copy_images. unfold bind at 1. rewrite Hmk.
  fold sp. fold input_dir. unfold bind. by rewrite Hloop.
Qed.

End PassThrough.

(** ** [md-to-html] from end to end *)

Section MdToHtml.
Context {L : Libraries}.

(** X10.  [md-to-html] with [--no-images], once the startup check has passed:
    if the input is a regular file whose bytes are UTF-8 and the output path
    (the one given, or [output.html] when none or an empty one is given) can
    be opened for writing, the run returns, the output holds the themed page
    around the rendering of the decoded text (newlines translated) with the
    colours of the command line, no other node changes, and the input is
    read and the output written and nothing else.  On bytes that are not
    UTF-8 the run raises [UnicodeDecodeError] and writes nothing. *)
Theorem main_md_to_html_no_images (args : Namespace) (w w1 : world)
    (raw : string) (t : nat) (k : path) :
  let output :=
    match args_output args with
    | Some o => if truthy o then o else "output.html"
    | None => "output.html"
    end in
  let page :=
    generate_html_template (markdown2_markdown (Text.universal_newlines raw))
      (args_bg_color args) (args_text_color args) (args_heading_color args)
      (args_link_color args) (args_code_bg args) (args_border_color args) in
  args_command args = Some md_to_html ->
  args_no_images args = true ->
  check_wkhtmltopdf w = (Return tt, w1) ->
  FS.stat w1 (args_input args) = inr (File raw t) ->
  (Text.utf8_valid raw = true ->
   FS.locate_for_write w1 output = inr k ->
   exists w',
     main args w = (Return tt, w')
     /\ nodes w' = <[k := File page (clock w1)]> (nodes w1)
     /\ trace w' = trace w1 ++ [CallRead (args_input args); CallWrite output])
  /\ (Text.utf8_valid raw = false ->
      main args w = (Raise UnicodeDecodeError, log (CallRead (args_input args)) w1)).
Proof.
  intros output page Hcmd Hno Hcheck Hin.
  assert (Hmain : main args w
                  = (html_content <-
                       convert_markdown_to_html (args_input args) (args_bg_color args)
                         (args_text_color args) (args_heading_color args)
                         (args_link_color args) (args_code_bg args)
                         (args_border_color args) ;;
                     open_write output html_content) w1).
  { unfold main. unfold check_wkhtmltopdf in Hcheck.
    rewrite (bind_Return_eq _ _ _ _ _ Hcheck). rewrite Hcmd, Hno.
    change (default_output md_to_html) with "output.html". fold output.
    unfold bind.
    destruct (convert_markdown_to_html _ _ _ _ _ _ _ w1) as [[h|e|c] w2];
      reflexivity. }
  rewrite Hmain. clear Hmain. split.
  - intros Hvalid Hout.
    unfold bind at 1. unfold convert_markdown_to_html.
    unfold bind at 1. unfold open_read at 1. rewrite Hin, Hvalid.
    unfold ret at 1. fold page. unfold open_write.
    change (FS.locate_for_write (log (CallRead (args_input args)) w1) output)
      with (FS.locate_for_write w1 output).
    rewrite Hout. eexists. split; [reflexivity|]. split; [reflexivity|].
    simpl. by rewrite <- app_assoc.
  - intros Hinvalid.
    unfold bind at 1. unfold convert_markdown_to_html.
    unfold bind at 1. unfold open_read at 1. by rewrite Hin, Hinvalid.
Qed.

End MdToHtml.

(** ** Evaluations *)

(** C1, on the program.  A document in [/d] refers to [../a.png], which
    exists.  The source is normalized to the absolute path [/a.png]; joining
    it to the output directory gives [/a.png] again, so the directory that is
    "created" is [/], the copy is asked to write the picture onto itself, and
    [copy_images] raises [SameFileError]: nothing is copied under the output
    directory and no HTML is returned. *)
Theorem copy_images_parent_reference_raises :
  let r := copy_images (L := libs_ok) (img_html "../a.png") "/d/doc.md" "/d/out"
             false project_world in
  fst r = Raise SameFileError
  /\ trace (snd r)
     = [CallMakedirs "/d/out"; CallExists "/a.png"; CallMakedirs "/";
        CallCopy2 "/a.png" "/a.png"]
  /\ FS.exists_ (snd r) "/d/out/a.png" = false
  /\ nodes (snd r) = <[ ["d"; "out"] := Dir ]> (nodes project_world).
Proof. vm_compute. repeat split. Qed.

(** C3, on the program.  A document in [/d] refers to [./pic.png], which
    exists, and the output directory is [/d] too (the output path is left at
    its default and the program runs where the document is).  The copy is
    asked to write the picture onto itself, and [copy_images] raises
    [SameFileError]: the source attribute is not rewritten and no HTML is
    returned. *)
Theorem copy_images_in_place_raises :
  let r := copy_images (L := libs_ok) (img_html "./pic.png") "/d/doc.md" "/d"
             false project_world in
  fst r = Raise SameFileError
  /\ trace (snd r)
     = [CallMakedirs "/d"; CallExists "/d/pic.png";
        CallCopy2 "/d/pic.png" "/d/pic.png"]
  /\ nodes (snd r) = nodes project_world.
Proof. vm_compute. repeat split. Qed.

(** The same document relocated into another directory: the picture is
    copied with its content and modification time, and the reference loses
    its [./]. *)
Example copy_images_relocates_example :
  let r := copy_images (L := libs_ok) (img_html "./pic.png") "/d/doc.md" "/d/out"
             false project_world in
  fst r = Return (img_html "pic.png")
  /\ FS.stat (snd r) "/d/out/pic.png" = inr (File "PNG-pic" 7)
  /\ FS.stat (snd r) "/d/pic.png" = inr (File "PNG-pic" 7).
Proof. vm_compute. repeat split. Qed.

(** C2, as stated, fails.  The renderer is installed but reports an error on
    the document: [convert_html_to_pdf] raises, the statement that removes
    the temporary file is not reached, and [temp.html] is still there when
    the run ends. *)
Lemma temp_html_left_when_render_fails :
  let r := main (L := libs_render_fails)
             (args_of (Some html_to_pdf) "page.html" None true) project_world in
  fst r = Raise IOError
  /\ FS.stat (snd r) "temp.html" = inr (File "<p>Hello</p>" 101)
  /\ trace (snd r)
     = [CallRender "test.pdf"; CallRead "page.html"; CallWrite "temp.html";
        CallRender "output.pdf"].
Proof. vm_compute. repeat split. Qed.

(** ** Witnesses *)

Lemma temp_html_removed_on_completion_witness :
  let args := args_of (Some html_to_pdf) "page.html" None true in
  let r := main (L := libs_ok) args project_world in
  fst r = Return tt /\ FS.exists_ (snd r) "temp.html" = false.
Proof.
  split; [vm_compute; reflexivity|].
  apply (temp_html_removed_on_completion (L := libs_ok)
           (args_of (Some html_to_pdf) "page.html" None true) project_world).
  - right. reflexivity.
  - vm_compute. reflexivity.
Defined.

Lemma main_without_renderer_witness :
  exists w',
    main (L := libs_no_renderer) (args_of (Some md_to_html) "doc.md" None false)
      project_world = (Exit 1, w')
    /\ stdout w' = stdout project_world ++ install_instructions
    /\ trace w' = trace project_world ++ [CallRender "test.pdf"]
    /\ nodes w' = nodes project_world.
Proof.
  apply (@main_without_renderer libs_no_renderer). reflexivity.
Defined.

Lemma copy_images_no_src_witness :
  let sp := [Tag "img" [("alt", "logo")]; Tag "img" [("src", EmptyString)]] in
  copy_images_body "/d" "/d/out" 1 sp project_world
  = (Return sp, project_world)
  /\ copy_images_loop "/d" "/d/out" [1] sp project_world
     = copy_images_loop "/d" "/d/out" [] sp project_world.
Proof.
  apply copy_images_no_src. right. reflexivity.
Defined.

Lemma copy_images_missing_image_witness :
  let sp := [Tag "img" [("src", "./gone.png")]] in
  copy_images_body "/d" "/d/out" 0 sp project_world
  = (Return sp, log (CallExists "/d/gone.png") project_world).
Proof.
  apply (copy_images_missing_image "/d" "/d/out" 0 []
           [Tag "img" [("src", "./gone.png")]] "./gone.png" project_world);
    reflexivity.
Defined.



Lemma main_leaves_test_pdf_witness :
  let args := args_of (Some md_to_html) "doc.md" None false in
  FS.isfile project_world "test.pdf" = false
  /\ FS.isfile (main (L := libs_no_img) args project_world).2 "test.pdf" = true.
Proof.
  split; [reflexivity|].
  apply (main_leaves_test_pdf (L := libs_no_img)
           (args_of (Some md_to_html) "doc.md" None false) project_world
           ["d"; "test.pdf"] "%PDF-1.4"); reflexivity.
Defined.

Lemma copy_images_relocates_witness :
  let sp := [Tag "img" [("alt", "logo"); ("src", "./img/logo.png")]] in
  exists w2,
    copy_images_body "/d" "/d/out" 0 sp site_world
    = (Return [Tag "img" [("alt", "logo"); ("src", "img/logo.png")]], w2)
    /\ FS.stat w2 "/d/out/img/logo.png" = inr (File "PNG-logo" 9)
    /\ FS.stat w2 "/d/img/logo.png" = inr (File "PNG-logo" 9).
Proof.
  intros sp.
  destruct (copy_images_relocates "/d" "/d/out" 0 sp "./img/logo.png" "PNG-logo" 9
              site_world
              (os_makedirs "/d/out/img"
                 (log (CallExists "/d/img/logo.png") site_world)).2
              ["d"; "out"; "img"; "logo.png"])
    as (w2 & Hbody & _ & Hdst & Hsrc & _);
    try (vm_compute; reflexivity).
  exists w2. split; [exact Hbody|]. split; [exact Hdst|exact Hsrc].
Defined.

Lemma copy_images_body_parent_reference_witness :
  FS.exists_ project_world "/a.png" = true
  /\ exists e w',
       copy_images_body "/d" "/d/out" 0 [Tag "img" [("src", "../a.png")]] project_world
       = (Raise e, w').
Proof.
  split; [reflexivity|].
  apply (copy_images_body_parent_reference "/d" "/d/out" 0
           [Tag "img" [("src", "../a.png")]] "../a.png" project_world);
    reflexivity.
Defined.


Lemma render_through_temp_success_witness :
  exists w',
    render_through_temp (L := libs_ok) "<p>Hello</p>" "output.pdf" "A4" "10mm"
      project_world = (Return tt, w')
    /\ nodes w' !! ["d"; "output.pdf"] = Some (File "%PDF-1.4" 101)
    /\ nodes w' !! ["d"; "temp.html"] = None.
Proof.
  destruct (render_through_temp_success (L := libs_ok) "<p>Hello</p>" "output.pdf"
              "A4" "10mm" "%PDF-1.4" project_world ["d"; "temp.html"]
              ["d"; "output.pdf"])
    as (w' & Hrun & _ & Hout & Htemp & _);
    try (vm_compute; reflexivity).
  - discriminate.
  - exists w'. split; [exact Hrun|]. split; [exact Hout|exact Htemp].
Defined.

Lemma main_removes_only_temp_html_witness :
  let args := args_of (Some html_to_pdf) "page.html" None true in
  is_Some (nodes (main (L := libs_ok) args project_world).2 !! ["d"; "pic.png"]).
Proof.
  intros args.
  destruct (main_removes_only_temp_html (L := libs_ok) args project_world
              ["d"; "pic.png"]) as (_ & Hkeep & _).
  apply Hkeep.
  - vm_compute. by eexists.
  - vm_compute. discriminate.
Defined.

Lemma copy_images_changes_only_src_witness :
  let sp := [Tag "p" [("class", "intro")];
             Tag "img" [("alt", "logo"); ("src", "./img/logo.png"); ("width", "40")]] in
  let run := copy_images_loop "/d" "/d/out" (find_all sp "img") sp site_world in
  run.1 = Return [Tag "p" [("class", "intro")];
                  Tag "img" [("alt", "logo"); ("src", "img/logo.png"); ("width", "40")]]
  /\ exists sp', run.1 = Return sp' /\ length sp' = 2.
Proof.
  intros sp run. split; [vm_compute; reflexivity|].
  assert (Hrun : copy_images_loop "/d" "/d/out" (find_all sp "img") sp site_world
                 = (Return [Tag "p" [("class", "intro")];
                            Tag "img" [("alt", "logo"); ("src", "img/logo.png");
                                       ("width", "40")]], run.2))
    by (vm_compute; reflexivity).
  eexists. split; [vm_compute; reflexivity|].
  exact (proj1 (copy_images_changes_only_src "/d" "/d/out" sp _ site_world run.2 Hrun)).
Defined.

Lemma copy_images_passes_through_witness :
  exists w',
    copy_images (L := libs_ok) (img_html "./gone.png") "/d/doc.md" "/d/out" false
      project_world
    = (Return (img_html "./gone.png"), w')
    /\ nodes w' = nodes (os_makedirs "/d/out" project_world).2.
Proof.
  destruct (copy_images_passes_through (L := libs_ok) (img_html "./gone.png")
              "/d/doc.md" "/d/out" project_world
              (os_makedirs "/d/out" project_world).2)
    as (w' & Hrun & Hn & _).
  - vm_compute. reflexivity.
  - intros img Hin. vm_compute in Hin. apply list_elem_of_singleton in Hin as ->.
    right. vm_compute. reflexivity.
  - exists w'. split; [exact Hrun|exact Hn].
Defined.

Lemma main_md_to_html_no_images_witness :
  let args := args_of (Some md_to_html) "doc.md" None true in
  exists w',
    main (L := libs_ok) args project_world = (Return tt, w')
    /\ nodes w' !! ["d"; "output.html"]
       = Some (File (generate_html_template "<p>Hello</p>" "#0d1117" "#c9d1d9"
                       "#e6f1ff" "#58a6ff" "#161b22" "#30363d") 101).
Proof.
  intros args.
  destruct (main_md_to_html_no_images (L := libs_ok) args project_world
              (check_wkhtmltopdf (L := libs_ok) project_world).2 "Hello" 5
              ["d"; "output.html"])
    as [Hok _]; try (vm_compute; reflexivity).
  destruct Hok as (w' & Hrun & Hn & _); try (vm_compute; reflexivity).
  exists w'. split; [exact Hrun|]. rewrite Hn. vm_compute. reflexivity.
Defined.

Lemma temp_html_removed_after_render_witness :
  let args := args_of (Some html_to_pdf) "page.html" None true in
  exists w',
    main (L := libs_ok) args project_world = (Return tt, w')
    /\ FS.exists_ w' "temp.html" = false.
Proof.
  intros args.
  set (w0 := (pdf_document (L := libs_ok) args html_to_pdf project_world).2).
  set (w1 := (open_write "temp.html" "<p>Hello</p>" w0).2).
  set (w2 := (convert_html_to_pdf (L := libs_ok) "temp.html" "output.pdf" "A4"
                "10mm" w1).2).
  destruct (temp_html_removed_after_render (L := libs_ok) args html_to_pdf
              "<p>Hello</p>" project_world w0 w1 w2 (Return tt))
    as [(_ & w' & Hmain & Hgone & _) | (e & He & _)];
    try (vm_compute; reflexivity).
  - right. reflexivity.
  - exists w'. by split.
  - discriminate.
Defined.
